(** * Progress metrics of the personal security checklist

    A shallow embedding of [web/src/components/psc/progress.tsx]: the
    closures [calculateProgress], [filterByPriority], [drawProgress],
    [makeDataAndDrawChart] and [makeRadarData] of the progress component,
    with the properties the specification states about them and further
    properties read off the code.

    Conventions of the embedding.
    - A JavaScript string is a sequence of UTF-16 code units.  The model keeps
      the code units below 256 (ASCII and Latin-1), a range that
      [String.prototype.toLowerCase] maps into itself, as [string].
    - The counters are JavaScript numbers holding integers; they are [Z].
      Where the source divides, the operands are converted to binary64
      ([PrimFloat.float]), the number type of the language.
    - The two local-storage snapshots are plain objects used as maps from an
      id to a flag; their own keys are a [gmap string bool].  A property read
      [snapshot[id]] goes through the prototype chain: a key the object does
      not own reads the property of [Object.prototype] when the key names
      one ([constructor], [__proto__], ...), and [undefined] otherwise.  A
      snapshot that is [null] or [undefined] is [None]; reading a property
      of it throws a [TypeError].
    - The DOM and the chart libraries are outside: [drawProgress] takes the
      computed style as a function and returns what it hands to
      ProgressBar.js (the selector, the configuration with its step
      function, the animation target).
    - The closures are QRLs and so return promises; a promise is modelled by
      the [result] it settles to, and [Promise.all] by the traversal that
      keeps the order of its inputs and rejects with the first rejection. *)

From Stdlib Require Import ZArith Ascii String List Floats Uint63 Lia.
From stdpp Require Import base option list gmap strings.

Local Open Scope string_scope.
Local Open Scope list_scope.

(** ** Strings *)

Module JsString.

(** Applies [f] to each code unit. *)
Fixpoint map_units (f : ascii -> ascii) (s : string) : string :=
  match s with
  | EmptyString => EmptyString
  | String c s' => String (f c) (map_units f s')
  end.

(** [toLowerCase] on one code unit: A-Z, and the Latin-1 capitals
    U+00C0..U+00DE without the multiplication sign U+00D7, move up by 32. *)
Definition lower_unit (c : ascii) : ascii :=
  let n := N_of_ascii c in
  if ((65 <=? n) && (n <=? 90))%N
     || ((192 <=? n) && (n <=? 222) && negb (n =? 215))%N
  then ascii_of_N (n + 32) else c.

(** [toUpperCase] on one code unit, for the code units whose capital is
    again a single code unit below 256: a-z and U+00E0..U+00FE without the
    division sign U+00F7. *)
Definition upper_unit (c : ascii) : ascii :=
  let n := N_of_ascii c in
  if ((97 <=? n) && (n <=? 122))%N
     || ((224 <=? n) && (n <=? 254) && negb (n =? 247))%N
  then ascii_of_N (n - 32) else c.

Definition toLowerCase (s : string) : string := map_units lower_unit s.

(** [s.replace(/ /g, '-')]: every U+0020 becomes U+002D. *)
Definition hyphen_unit (c : ascii) : ascii :=
  if Ascii.eqb c " "%char then "-"%char else c.

Definition replace_spaces (s : string) : string := map_units hyphen_unit s.

(** [s.charAt(0).toUpperCase() + s.slice(1)]. *)
Definition capitalize (s : string) : string :=
  match s with
  | EmptyString => EmptyString
  | String c s' => String (upper_unit c) s'
  end.

End JsString.

(** ** Numbers *)

Module JsNumber.

(** The binary64 value of an integer counter. *)
Definition of_Z (z : Z) : float :=
  if (z <? 0)%Z then (- PrimFloat.of_uint63 (Uint63.of_Z (- z)))%float
  else PrimFloat.of_uint63 (Uint63.of_Z z).

Definition hundred : float := Eval cbv in PrimFloat.of_uint63 100%uint63.

(** [Math.round]: the nearest integer, a tie going towards +infinity;
    NaN, the infinities and the zeros are returned as they are, and a
    negative argument that rounds to zero gives -0. *)
Definition Math_round (x : float) : float :=
  match Prim2SF x with
  | S754_finite s m e =>
      if (0 <=? e)%Z then x
      else
        let d := (2 ^ (- e))%Z in
        let twice := if s then (- (2 * Z.pos m))%Z else (2 * Z.pos m)%Z in
        let n := ((twice + d) / (2 * d))%Z in
        if (n =? 0)%Z then (if s then neg_zero else zero) else of_Z n
  | _ => x
  end.

End JsNumber.

(** ** Data model ([~/types/PSC]) *)

(** The three priority tiers, and the string each is at run time. *)
Inductive Priority := recommended | optional | advanced.

Definition priority_name (p : Priority) : string :=
  match p with
  | recommended => "recommended"
  | optional => "optional"
  | advanced => "advanced"
  end.

(** A checklist item.  Its [priority] is the text of the catalog, which the
    code normalizes before it compares it with a tier. *)
Record ChecklistItem := { point : string; priority : string }.

(** A section of the catalog ([Section] in the source). *)
Record PscSection := { title : string; checklist : list ChecklistItem }.

Definition Sections := list PscSection.

(** What [calculateProgress] returns. *)
Record Progress := { completed : Z; outOf : Z }.

(** ** Promises and exceptions *)

Inductive JsError := TypeError.

Inductive result (A : Type) :=
| Ok (a : A)
| Throw (e : JsError).
Arguments Ok {A} a.
Arguments Throw {A} e.

#[global] Instance result_ret : MRet result := fun _ a => Ok a.

#[global] Instance result_bind : MBind result := fun _ _ k r =>
  match r with
  | Ok a => k a
  | Throw e => Throw e
  end.

(** [xs.forEach(f)] with the variables the callback assigns threaded as a
    state; an exception in the callback ends the loop. *)
Fixpoint forEach {A S} (f : A -> S -> result S) (xs : list A) (s : S)
  : result S :=
  match xs with
  | [] => Ok s
  | x :: xs' => s' ← f x s; forEach f xs' s'
  end.

(** [Promise.all(xs.map(f))]: the values in the order of [xs], or the first
    rejection. *)
Fixpoint promise_all {A B} (f : A -> result B) (xs : list A)
  : result (list B) :=
  match xs with
  | [] => Ok []
  | x :: xs' => y ← f x; ys ← promise_all f xs'; mret (y :: ys)
  end.

(** ** The component *)

Import JsString JsNumber.

(** [pri.toLowerCase().replace(/ /g, '-')]: the local [normalize] of
    [filterByPriority], and the expression that computes an item's id in
    [calculateProgress]. *)
Definition normalize (pri : string) : string :=
  replace_spaces (toLowerCase pri).

(** The values a property read on a snapshot gives: [undefined], a flag
    of the snapshot, or a function or object inherited from
    [Object.prototype]. *)
Inductive JsValue :=
| Undefined
| Boolean (b : bool)
| ObjectValue.

(** The property names of [Object.prototype], which every plain object
    inherits; the value of each is a function or an object. *)
Definition object_prototype_names : list string :=
  [ "constructor"; "__defineGetter__"; "__defineSetter__"; "hasOwnProperty";
    "__lookupGetter__"; "__lookupSetter__"; "isPrototypeOf";
    "propertyIsEnumerable"; "toString"; "valueOf"; "__proto__";
    "toLocaleString" ].

(** [object[key]] for a plain object with the given own keys: the own
    property when there is one, the inherited one otherwise. *)
Definition get_property (object : gmap string bool) (key : string)
  : JsValue :=
  match object !! key with
  | Some b => Boolean b
  | None =>
      if bool_decide (key ∈ object_prototype_names) then ObjectValue
      else Undefined
  end.

(** A value used as a condition: [true], functions and objects are truthy;
    [false] and [undefined] are not. *)
Definition truthy (v : JsValue) : bool :=
  match v with
  | Boolean true | ObjectValue => true
  | Boolean false | Undefined => false
  end.

(** [store.value[id]]. *)
Definition read (value : option (gmap string bool)) (id : string)
  : result JsValue :=
  match value with
  | None => Throw TypeError
  | Some m => Ok (get_property m id)
  end.

(** The two variables the loops of [calculateProgress] assign. *)
Record Counters := { totalComplete : Z; totalItems : Z }.

(** The arguments of a call of [drawProgress]. *)
Record DrawCall := {
  percentage : float;
  target : string;
  color : option string
}.

Record Dataset := {
  borderWidth : Z;
  label : string;
  data : list float;
  backgroundColor : string
}.

Record RadarChartData := { labels : list string; datasets : list Dataset }.

Section Component.

(** The catalog from the store, and the values of the two local-storage
    signals [PSC_PROGRESS] and [PSC_IGNORED]. *)
Context (checklists : Sections).
Context (checkedItems ignoredItems : option (gmap string bool)).

(** The body of the inner [forEach] of [calculateProgress]. *)
Definition count_item (checked : gmap string bool) (item : ChecklistItem)
    (st : Counters) : result Counters :=
  let id := replace_spaces (toLowerCase (point item)) in
  let isComplete := get_property checked id in
  isIgnored ← read ignoredItems id;
  let st :=
    if truthy isComplete
    then {| totalComplete := totalComplete st + 1;
            totalItems := totalItems st |}
    else st in
  let st :=
    if truthy isIgnored
    then {| totalComplete := totalComplete st;
            totalItems := totalItems st - 1 |}
    else st in
  mret st.

Definition calculateProgress (sections : Sections) : result Progress :=
  match checkedItems with
  | None => mret {| completed := 0; outOf := 0 |}
  | Some checked =>
      if (length sections =? 0)%nat
      then mret {| completed := 0; outOf := 0 |}
      else
        let totalItems0 :=
          fold_left
            (fun (total : Z) (section : PscSection) =>
               (total + Z.of_nat (length (checklist section)))%Z)
            sections 0%Z in
        let totalComplete0 := 0%Z in
        st ← forEach
               (fun section => forEach (count_item checked) (checklist section))
               sections
               {| totalComplete := totalComplete0;
                  totalItems := totalItems0 |};
        mret {| completed := totalComplete st; outOf := totalItems st |}
  end.

Definition filterByPriority (sections : Sections) (tier : string)
  : Sections :=
  map (fun section =>
         {| title := title section;
            checklist :=
              filter (fun item => normalize (priority item) = normalize tier)
                     (checklist section) |})
      sections.

(** [makeDataAndDrawChart], up to the call of [drawProgress]: the model
    returns the arguments of that call. *)
Definition makeDataAndDrawChart (tier : Priority) (color : option string)
  : result DrawCall :=
  let sections := filterByPriority checklists (priority_name tier) in
  progress ← calculateProgress sections;
  let percent :=
    Math_round
      (of_Z (completed progress) / of_Z (outOf progress) * hundred)%float in
  mret {| percentage := percent;
          target := ("#" ++ priority_name tier ++ "-container")%string;
          color := color |}.

(** The helper [calculatePercentage] of [makeRadarData]. *)
Definition calculatePercentage (section : PscSection) (tier : Priority)
  : result float :=
  let filteredSections := filterByPriority [section] (priority_name tier) in
  progress ← calculateProgress filteredSections;
  mret (if (0 <? outOf progress)%Z
        then (of_Z (completed progress) / of_Z (outOf progress)
              * hundred)%float
        else zero).

Definition buildDataForPriority (sections : Sections) (tier : Priority)
    (color : string) : result Dataset :=
  data ← promise_all (fun section => calculatePercentage section tier)
                     sections;
  mret {| borderWidth := 1;
          label := capitalize (priority_name tier);
          data := data;
          backgroundColor := color |}.

Definition makeRadarData (sections : Sections) : result RadarChartData :=
  let labels := map title sections in
  datasets ← promise_all (fun p : result Dataset => p)
    [ buildDataForPriority sections advanced "hsl(0 91% 71%/75%)";
      buildDataForPriority sections optional "hsl(43 96% 56%/75%)";
      buildDataForPriority sections recommended "hsl(158 64% 52%/75%)" ];
  mret {| labels := labels; datasets := datasets |}.

End Component.

(** ** The aggregation in the words of the specification *)

(** Every item of every section, in catalog order. *)
Definition all_items (sections : Sections) : list ChecklistItem :=
  concat (map checklist sections).

(** The sum of the checklist lengths. *)
Definition sum_lengths (sections : Sections) : nat :=
  sum_list (map (fun section => length (checklist section)) sections).

(** The normalized id of the item maps to [true] in the state. *)
Definition marked (state : gmap string bool) (item : ChecklistItem) : Prop :=
  state !! normalize (point item) = Some true.

#[global] Instance marked_dec state item : Decision (marked state item).
Proof. unfold marked. apply _. Defined.

Definition count_marked (state : gmap string bool)
    (items : list ChecklistItem) : nat :=
  length (filter (marked state) items).

(** [aggregate] as section 4.3 describes it. *)
Definition aggregate_spec (completion ignore : gmap string bool)
    (sections : Sections) : Progress :=
  {| completed := Z.of_nat (count_marked completion (all_items sections));
     outOf := Z.of_nat (sum_lengths sections)
              - Z.of_nat (count_marked ignore (all_items sections)) |}.

(** ** The aggregation as the code reads the snapshots *)

(** The id of the item reads as a truthy value in the state: it maps to
    [true] there, or the state has no such key and the id is a property name
    of [Object.prototype]. *)
Definition reads_true (state : gmap string bool) (item : ChecklistItem)
  : Prop :=
  truthy (get_property state (normalize (point item))) = true.

#[global] Instance reads_true_dec state item : Decision (reads_true state item).
Proof. unfold reads_true. apply _. Defined.

Definition count_read (state : gmap string bool)
    (items : list ChecklistItem) : nat :=
  length (filter (reads_true state) items).

(** The result of the aggregation in closed form. *)
Definition aggregate_code (completion ignore : gmap string bool)
    (sections : Sections) : Progress :=
  {| completed := Z.of_nat (count_read completion (all_items sections));
     outOf := Z.of_nat (sum_lengths sections)
              - Z.of_nat (count_read ignore (all_items sections)) |}.

(** The id of the item is no property name of [Object.prototype]. *)
Definition own_id (item : ChecklistItem) : Prop :=
  normalize (point item) ∉ object_prototype_names.

#[global] Instance own_id_dec item : Decision (own_id item).
Proof. unfold own_id. apply _. Defined.

(** ** Basic facts *)

Lemma truthy_reads (state : gmap string bool) (item : ChecklistItem) :
  truthy (get_property state (replace_spaces (toLowerCase (point item))))
  = bool_decide (reads_true state item).
Proof.
  case_bool_decide as H; unfold reads_true, normalize in H; [done|].
  by apply not_true_is_false.
Qed.

Lemma marked_reads_true state item : marked state item -> reads_true state item.
Proof. unfold marked, reads_true, get_property. by intros ->. Qed.

Lemma reads_true_marked state item :
  own_id item -> reads_true state item <-> marked state item.
Proof.
  unfold own_id, marked, reads_true, get_property. intros O.
  destruct (state !! normalize (point item)) as [[]|]; [done|done|].
  rewrite bool_decide_eq_false_2 by done. done.
Qed.

Lemma count_read_cons state item items :
  count_read state (item :: items)
  = ((if bool_decide (reads_true state item) then 1 else 0)
     + count_read state items)%nat.
Proof.
  unfold count_read. rewrite filter_cons.
  case_bool_decide; [rewrite decide_True by done | rewrite decide_False by done];
    done.
Qed.

Lemma count_read_app state xs ys :
  count_read state (xs ++ ys)
  = (count_read state xs + count_read state ys)%nat.
Proof. unfold count_read. by rewrite filter_app, length_app. Qed.

Lemma count_read_le state items :
  (count_read state items <= length items)%nat.
Proof. apply length_filter. Qed.

Lemma count_marked_cons state item items :
  count_marked state (item :: items)
  = ((if bool_decide (marked state item) then 1 else 0)
     + count_marked state items)%nat.
Proof.
  unfold count_marked. rewrite filter_cons.
  case_bool_decide; [rewrite decide_True by done | rewrite decide_False by done];
    done.
Qed.

Lemma count_marked_app state xs ys :
  count_marked state (xs ++ ys)
  = (count_marked state xs + count_marked state ys)%nat.
Proof. unfold count_marked. by rewrite filter_app, length_app. Qed.

Lemma count_marked_le state items :
  (count_marked state items <= length items)%nat.
Proof. apply length_filter. Qed.

Lemma count_marked_empty items : count_marked ∅ items = 0%nat.
Proof.
  induction items as [|item items IH]; [done|].
  rewrite count_marked_cons, IH. rewrite bool_decide_eq_false_2; [done|].
  unfold marked. by rewrite lookup_empty.
Qed.

Lemma sum_lengths_all_items sections :
  sum_lengths sections = length (all_items sections).
Proof.
  unfold sum_lengths, all_items.
  induction sections as [|s sections IH]; simpl; [done|].
  by rewrite length_app, IH.
Qed.

Lemma fold_left_lengths sections (total : Z) :
  fold_left
    (fun (total : Z) (section : PscSection) =>
       (total + Z.of_nat (length (checklist section)))%Z)
    sections total
  = (total + Z.of_nat (sum_lengths sections))%Z.
Proof.
  revert total. induction sections as [|s sections IH]; intros total; simpl.
  - unfold sum_lengths. simpl. lia.
  - rewrite IH. unfold sum_lengths. simpl. lia.
Qed.

(** One step of the inner loop, when the ignore snapshot is an object. *)
Lemma count_item_step checked ignored item st :
  count_item (Some ignored) checked item st
  = Ok {| totalComplete :=
            totalComplete st
            + (if bool_decide (reads_true checked item) then 1 else 0);
          totalItems :=
            totalItems st
            - (if bool_decide (reads_true ignored item) then 1 else 0) |}.
Proof.
  unfold count_item. simpl. rewrite !truthy_reads.
  destruct st as [c t].
  do 2 case_bool_decide; simpl; do 2 f_equal; lia.
Qed.

Lemma forEach_count_item checked ignored items st :
  forEach (count_item (Some ignored) checked) items st
  = Ok {| totalComplete :=
            totalComplete st + Z.of_nat (count_read checked items);
          totalItems :=
            totalItems st - Z.of_nat (count_read ignored items) |}.
Proof.
  revert st. induction items as [|item items IH]; intros st.
  - destruct st; simpl. do 2 f_equal; unfold count_read; simpl; lia.
  - cbn [forEach]. rewrite count_item_step. cbn [mbind result_bind].
    rewrite IH. cbn [totalComplete totalItems].
    rewrite !count_read_cons. do 2 f_equal; repeat case_bool_decide; lia.
Qed.

Lemma forEach_sections checked ignored sections st :
  forEach
    (fun section =>
       forEach (count_item (Some ignored) checked) (checklist section))
    sections st
  = Ok {| totalComplete :=
            totalComplete st
            + Z.of_nat (count_read checked (all_items sections));
          totalItems :=
            totalItems st
            - Z.of_nat (count_read ignored (all_items sections)) |}.
Proof.
  revert st. induction sections as [|s sections IH]; intros st.
  - destruct st; simpl. do 2 f_equal; unfold count_read; simpl; lia.
  - cbn [forEach]. rewrite forEach_count_item. cbn [mbind result_bind].
    rewrite IH. cbn [totalComplete totalItems].
    unfold all_items. cbn [map concat]. rewrite !count_read_app.
    do 2 f_equal; lia.
Qed.

(** The aggregation with both snapshots present, in closed form. *)
Lemma calculateProgress_present checked ignored sections :
  calculateProgress (Some checked) (Some ignored) sections
  = Ok (aggregate_code checked ignored sections).
Proof.
  unfold calculateProgress, aggregate_code.
  destruct sections as [|s sections]; [done|].
  cbn [length Nat.eqb]. rewrite forEach_sections. cbn [mbind result_bind mret result_ret].
  cbn [totalComplete totalItems]. rewrite fold_left_lengths.
  do 2 f_equal; lia.
Qed.

(** ** The id normalizer *)

Lemma map_units_compose (f g : ascii -> ascii) (s : string) :
  map_units g (map_units f s) = map_units (fun c => g (f c)) s.
Proof. induction s as [|c s IH]; simpl; [done | by rewrite IH]. Qed.

Lemma map_units_ext (f g : ascii -> ascii) (s : string) :
  (forall c, f c = g c) -> map_units f s = map_units g s.
Proof. intros E. induction s as [|c s IH]; simpl; [done | by rewrite E, IH]. Qed.

(** What [normalize] does to one code unit. *)
Definition normalize_unit (c : ascii) : ascii := hyphen_unit (lower_unit c).

Lemma normalize_units (s : string) : normalize s = map_units normalize_unit s.
Proof.
  unfold normalize, replace_spaces, toLowerCase.
  by rewrite map_units_compose.
Qed.

Lemma normalize_unit_idempotent (c : ascii) :
  normalize_unit (normalize_unit c) = normalize_unit c.
Proof. destruct c as [[] [] [] [] [] [] [] []]; vm_compute; reflexivity. Qed.

(** A code unit that is neither a capital nor the space is kept. *)
Lemma normalize_unit_other (c : ascii) :
  lower_unit c = c -> c <> " "%char -> normalize_unit c = c.
Proof.
  intros L S. unfold normalize_unit, hyphen_unit. rewrite L.
  destruct (Ascii.eqb_spec c " "%char); [done | done].
Qed.

(** C6. The id normalization maps "Use Strong Passwords" to
    "use-strong-passwords", and it is idempotent: normalizing a normalized
    string changes nothing. *)
Theorem normalize_example_and_idempotent :
  normalize "Use Strong Passwords" = "use-strong-passwords"
  /\ forall x : string, normalize (normalize x) = normalize x.
Proof.
  split; [reflexivity|].
  intros x. rewrite !normalize_units, map_units_compose.
  apply map_units_ext, normalize_unit_idempotent.
Qed.

(** ** The progress aggregator *)

Lemma count_read_own state (items : list ChecklistItem) :
  Forall own_id items -> count_read state items = count_marked state items.
Proof.
  unfold count_read, count_marked.
  induction 1 as [|item items O _ IH]; [done|].
  rewrite !filter_cons. pose proof (reads_true_marked state item O) as E.
  destruct (decide (marked state item)) as [M|M].
  - rewrite decide_True by tauto. cbn [length]. by rewrite IH.
  - rewrite decide_False by tauto. done.
Qed.

(** The aggregation is the one of section 4.3 when no id is a property
    name of [Object.prototype]. *)
Lemma calculateProgress_present_own checked ignored sections :
  Forall own_id (all_items sections) ->
  calculateProgress (Some checked) (Some ignored) sections
  = Ok (aggregate_spec checked ignored sections).
Proof.
  intros O. rewrite calculateProgress_present.
  unfold aggregate_code, aggregate_spec. by rewrite !count_read_own.
Qed.

(** An item whose id is [constructor], and the catalog made of it. *)
Definition constructor_item : ChecklistItem :=
  {| point := "Constructor"; priority := "recommended" |}.

Definition constructor_catalog : Sections :=
  [ {| title := "Development"; checklist := [constructor_item] |} ].

(** C3, on the code.  The catalog has one item, with the id [constructor],
    and both snapshots are the empty object, so the id maps to [true] in
    neither: the claim gives [completed = 0] and [outOf = 1].  The code reads
    [{}["constructor"]], which is the inherited constructor and truthy, for
    both snapshots, and returns [completed = 1] and [outOf = 0]. *)
Theorem inherited_id_read_as_marked :
  normalize (point constructor_item) = "constructor"
  /\ ~ marked ∅ constructor_item
  /\ aggregate_spec ∅ ∅ constructor_catalog = {| completed := 0; outOf := 1 |}
  /\ calculateProgress (Some ∅) (Some ∅) constructor_catalog
     = Ok {| completed := 1; outOf := 0 |}.
Proof.
  split; [reflexivity|]. split; [|split].
  - unfold marked. by rewrite lookup_empty.
  - vm_compute. reflexivity.
  - vm_compute. reflexivity.
Qed.

(** Without the completion snapshot the result is zero, whatever the rest. *)
Lemma calculateProgress_absent ignored sections :
  calculateProgress None ignored sections = Ok {| completed := 0; outOf := 0 |}.
Proof. reflexivity. Qed.

(** The loops read no snapshot when there is no item to visit. *)
Lemma forEach_no_items {S} (f : ChecklistItem -> S -> result S)
    (sections : Sections) (st : S) :
  Forall (fun s => checklist s = []) sections ->
  forEach (fun section => forEach f (checklist section)) sections st = Ok st.
Proof.
  induction 1 as [|s sections E _ IH]; [done|].
  cbn [forEach]. rewrite E. simpl. apply IH.
Qed.

Lemma sum_lengths_no_items sections :
  Forall (fun s => checklist s = []) sections -> sum_lengths sections = 0%nat.
Proof.
  unfold sum_lengths.
  induction 1 as [|s sections E _ IH]; [done|]. simpl. by rewrite E, IH.
Qed.

(** C8. For the empty list of sections, and for every list of sections
    whose checklists are all empty, [calculateProgress] returns exactly
    [{ completed: 0, outOf: 0 }]; it does not throw, whatever the two
    snapshots are (present or not). *)
Theorem calculateProgress_no_items
    (checked ignored : option (gmap string bool)) (sections : Sections) :
  sections = [] \/ Forall (fun s => checklist s = []) sections ->
  calculateProgress checked ignored sections
  = Ok {| completed := 0; outOf := 0 |}.
Proof.
  intros H.
  assert (Forall (fun s => checklist s = []) sections) as E.
  { destruct H as [->|H]; [constructor | done]. }
  unfold calculateProgress. destruct checked as [c|]; [|done].
  destruct sections as [|s sections]; [done|].
  cbn [length Nat.eqb]. rewrite forEach_no_items by done.
  cbn [mbind result_bind mret result_ret totalComplete totalItems].
  rewrite fold_left_lengths, sum_lengths_no_items by done. done.
Qed.

Lemma calculateProgress_no_items_witness :
  calculateProgress (Some {[ "use-mfa" := true ]}) None
    [ {| title := "Auth"; checklist := [] |};
      {| title := "Browsing"; checklist := [] |} ]
  = Ok {| completed := 0; outOf := 0 |}
  /\ calculateProgress (Some ∅) (Some ∅) [] = Ok {| completed := 0; outOf := 0 |}.
Proof.
  split.
  - apply calculateProgress_no_items. right. repeat constructor.
  - apply calculateProgress_no_items. left. reflexivity.
Defined.

(** C9, on the code.  Without the completion snapshot the result is
    [{ completed: 0, outOf: 0 }] for every list of sections, as the claim
    says.  With the empty object for both snapshots the claim gives
    [outOf = 1] for the catalog of the one item with the id [constructor];
    the code reads the inherited [{}["constructor"]] as an ignore mark and
    returns [outOf = 0]: the empty ignore snapshot has reduced [outOf]. *)
Theorem empty_ignore_snapshot_reduces_outOf :
  (forall ignored sections,
      calculateProgress None ignored sections
      = Ok {| completed := 0; outOf := 0 |})
  /\ length (all_items constructor_catalog) = 1%nat
  /\ (forall completion : gmap string bool,
        exists r : Progress,
          calculateProgress (Some completion) (Some ∅) constructor_catalog
          = Ok r
          /\ outOf r = 0%Z).
Proof.
  split; [intros; apply calculateProgress_absent|]. split; [reflexivity|].
  intros completion. eexists. split; [apply calculateProgress_present|].
  reflexivity.
Qed.

(** C10. For every list of sections and every pair of mappings (the
    completion snapshot may also be absent), the result of
    [calculateProgress] has [0 <= completed <= N] and [outOf <= N], where
    [N] is the number of items of all the sections; [outOf] is not negative
    either. *)
Theorem calculateProgress_bounds
    (checked : option (gmap string bool)) (ignore : gmap string bool)
    (sections : Sections) :
  exists r : Progress,
    calculateProgress checked (Some ignore) sections = Ok r
    /\ (0 <= completed r <= Z.of_nat (length (all_items sections)))%Z
    /\ (0 <= outOf r <= Z.of_nat (length (all_items sections)))%Z.
Proof.
  destruct checked as [completion|].
  - eexists. split; [apply calculateProgress_present|].
    cbn [aggregate_code completed outOf]. rewrite sum_lengths_all_items.
    pose proof (count_read_le completion (all_items sections)).
    pose proof (count_read_le ignore (all_items sections)). lia.
  - eexists. split; [apply calculateProgress_absent|]. simpl. lia.
Qed.

(** ** One item more or less *)

(** The catalog [pre ++ [section] ++ post] whose middle section holds
    [before ++ items ++ after]. *)
Definition catalog_around (pre : Sections) (t : string)
    (before items after : list ChecklistItem) (post : Sections) : Sections :=
  pre ++ {| title := t; checklist := before ++ items ++ after |} :: post.

Lemma all_items_app xs ys : all_items (xs ++ ys) = all_items xs ++ all_items ys.
Proof. unfold all_items. by rewrite map_app, concat_app. Qed.

Lemma all_items_catalog_around pre t before items after post :
  all_items (catalog_around pre t before items after post)
  = all_items pre ++ before ++ items ++ after ++ all_items post.
Proof.
  unfold catalog_around. rewrite all_items_app. unfold all_items at 2.
  cbn [map concat checklist]. by rewrite <- !app_assoc.
Qed.

(** The effect of one item on the closed form of the aggregation. *)
Lemma aggregate_code_one_more completion ignore pre t before item after post :
  aggregate_code completion ignore
    (catalog_around pre t before [item] after post)
  = let r0 := aggregate_code completion ignore
                (catalog_around pre t before [] after post) in
    {| completed :=
         completed r0 + (if bool_decide (reads_true completion item) then 1 else 0);
       outOf :=
         outOf r0 + 1 - (if bool_decide (reads_true ignore item) then 1 else 0) |}.
Proof.
  unfold aggregate_code. cbn zeta. cbn [completed outOf].
  rewrite !sum_lengths_all_items, !all_items_catalog_around.
  rewrite !count_read_app, !length_app. cbn [app].
  rewrite !count_read_cons. cbn [length].
  change (count_read completion []) with 0%nat.
  change (count_read ignore []) with 0%nat.
  f_equal; repeat case_bool_decide; lia.
Qed.

Lemma calculateProgress_one_more completion ignore pre t before item after post :
  exists r r0 : Progress,
    calculateProgress (Some completion) (Some ignore)
      (catalog_around pre t before [item] after post) = Ok r
    /\ calculateProgress (Some completion) (Some ignore)
         (catalog_around pre t before [] after post) = Ok r0
    /\ completed r
       = (completed r0
          + (if bool_decide (reads_true completion item) then 1 else 0))%Z
    /\ outOf r
       = (outOf r0 + 1
          - (if bool_decide (reads_true ignore item) then 1 else 0))%Z.
Proof.
  do 2 eexists. split; [apply calculateProgress_present|].
  split; [apply calculateProgress_present|].
  rewrite aggregate_code_one_more. done.
Qed.

(** C2. An item marked both completed and ignored is counted by both
    checks: the loop body adds 1 to [totalComplete] and takes 1 from
    [totalItems] for it, so that in any catalog the item raises [completed]
    by 1 and leaves [outOf] where it is without the item (one more in the
    sum of lengths, one less for the ignore mark); the catalog made of this
    single item gives [completed = 1 > outOf = 0]. *)
Theorem completed_and_ignored_item
    (completion ignore : gmap string bool) (item : ChecklistItem) :
  marked completion item ->
  marked ignore item ->
  (forall st,
      count_item (Some ignore) completion item st
      = Ok {| totalComplete := totalComplete st + 1;
              totalItems := totalItems st - 1 |})
  /\ (forall pre t before after post,
        exists r r0 : Progress,
          calculateProgress (Some completion) (Some ignore)
            (catalog_around pre t before [item] after post) = Ok r
          /\ calculateProgress (Some completion) (Some ignore)
               (catalog_around pre t before [] after post) = Ok r0
          /\ completed r = (completed r0 + 1)%Z
          /\ outOf r = (outOf r0 + 1 - 1)%Z)
  /\ (forall t,
        exists r : Progress,
          calculateProgress (Some completion) (Some ignore)
            [ {| title := t; checklist := [item] |} ] = Ok r
          /\ completed r = 1%Z /\ outOf r = 0%Z
          /\ (completed r > outOf r)%Z).
Proof.
  intros Hc Hi.
  apply marked_reads_true in Hc. apply marked_reads_true in Hi.
  split; [|split].
  - intros st. rewrite count_item_step.
    by rewrite !bool_decide_eq_true_2.
  - intros pre t before after post.
    destruct (calculateProgress_one_more completion ignore pre t before item
                after post) as (r & r0 & E & E0 & C & O).
    exists r, r0. rewrite !bool_decide_eq_true_2 in * by done. done.
  - intros t. eexists. split; [apply calculateProgress_present|].
    unfold aggregate_code, sum_lengths, all_items.
    cbn [map concat checklist app sum_list sum_list_with length completed outOf].
    rewrite !count_read_cons, !bool_decide_eq_true_2 by done.
    change (count_read completion []) with 0%nat.
    change (count_read ignore []) with 0%nat. simpl. lia.
Qed.

Lemma completed_and_ignored_item_witness :
  exists r : Progress,
    calculateProgress
      (Some {[ "use-mfa" := true ]}) (Some {[ "use-mfa" := true ]})
      [ {| title := "Auth";
           checklist := [ {| point := "Use MFA";
                             priority := "recommended" |} ] |} ] = Ok r
    /\ completed r = 1%Z /\ outOf r = 0%Z /\ (completed r > outOf r)%Z.
Proof.
  apply (completed_and_ignored_item
           {[ "use-mfa" := true ]} {[ "use-mfa" := true ]}
           {| point := "Use MFA"; priority := "recommended" |});
    vm_compute; reflexivity.
Defined.

(** ** The priority filter *)

(** The test of the filter, for one item. *)
Definition in_tier (tier : string) (item : ChecklistItem) : Prop :=
  normalize (priority item) = normalize tier.

#[global] Instance in_tier_dec tier item : Decision (in_tier tier item).
Proof. unfold in_tier. apply _. Defined.

Lemma filterByPriority_nil tier : filterByPriority [] tier = [].
Proof. reflexivity. Qed.

Lemma filterByPriority_cons s sections tier :
  filterByPriority (s :: sections) tier
  = {| title := title s; checklist := filter (in_tier tier) (checklist s) |}
    :: filterByPriority sections tier.
Proof. reflexivity. Qed.

Lemma filterByPriority_app xs ys tier :
  filterByPriority (xs ++ ys) tier
  = filterByPriority xs tier ++ filterByPriority ys tier.
Proof. unfold filterByPriority. apply map_app. Qed.

Lemma filterByPriority_length sections tier :
  length (filterByPriority sections tier) = length sections.
Proof. unfold filterByPriority. apply length_map. Qed.

(** C5. [filterByPriority] returns as many sections as it is given, in the
    same order: the i-th has the title of the i-th input section and, as its
    checklist, exactly the items of that section whose normalized priority
    equals the normalized tier, in their order (so it is no longer than the
    original).  The function builds new values and assigns nothing. *)
Theorem filterByPriority_spec (sections : Sections) (tier : string) :
  length (filterByPriority sections tier) = length sections
  /\ map title (filterByPriority sections tier) = map title sections
  /\ Forall2
       (fun s s' : PscSection =>
          title s' = title s
          /\ checklist s'
             = filter (fun item => normalize (priority item) = normalize tier)
                      (checklist s)
          /\ (forall item,
                 item ∈ checklist s'
                 <-> item ∈ checklist s
                     /\ normalize (priority item) = normalize tier)
          /\ sublist (checklist s') (checklist s)
          /\ (length (checklist s') <= length (checklist s))%nat)
       sections (filterByPriority sections tier).
Proof.
  split; [apply filterByPriority_length|].
  split.
  { unfold filterByPriority. rewrite map_map. done. }
  induction sections as [|s sections IH]; [constructor|].
  rewrite filterByPriority_cons. constructor; [|apply IH].
  cbn [title checklist]. split; [done|]. split; [done|].
  split; [|split].
  - intros item. rewrite list_elem_of_filter. unfold in_tier. tauto.
  - apply sublist_filter.
  - apply length_filter.
Qed.

(** ** Items of no known tier *)

(** The priority of the item matches none of the three tiers. *)
Definition unrecognized (item : ChecklistItem) : Prop :=
  forall tier : Priority,
    normalize (priority item) <> normalize (priority_name tier).

Lemma filterByPriority_drops item tier pre t before after post :
  ~ in_tier tier item ->
  filterByPriority (catalog_around pre t before [item] after post) tier
  = filterByPriority (catalog_around pre t before [] after post) tier.
Proof.
  intros N. unfold catalog_around.
  rewrite !filterByPriority_app, !filterByPriority_cons.
  cbn [title checklist]. do 3 f_equal.
  rewrite !filter_app. f_equal. f_equal.
  rewrite filter_cons, decide_False by done. done.
Qed.

Lemma filterByPriority_not_in item tier sections s' :
  ~ in_tier tier item ->
  s' ∈ filterByPriority sections tier -> item ∉ checklist s'.
Proof.
  intros N. unfold filterByPriority. rewrite list_elem_of_fmap.
  intros (s & -> & _). cbn [checklist]. rewrite list_elem_of_filter.
  intros [M _]. by apply N.
Qed.

(** The unrecognized item of the example below, and its section. *)
Definition odd_item : ChecklistItem :=
  {| point := "Review Settings"; priority := "essential" |}.

Lemma odd_item_unrecognized : unrecognized odd_item.
Proof. intros []; vm_compute; discriminate. Qed.

(** C7, the claim as written fails.  [odd_item] matches no tier and is in
    the catalog, but its id is marked ignored: the unfiltered aggregation
    returns [outOf = 0], the value it returns for the catalog without the
    item, so the item is not counted in [outOf]. *)
Lemma unrecognized_ignored_item_not_in_outOf :
  unrecognized odd_item
  /\ calculateProgress (Some ∅) (Some {[ "review-settings" := true ]})
       [ {| title := "Privacy"; checklist := [odd_item] |} ]
     = Ok {| completed := 0; outOf := 0 |}
  /\ calculateProgress (Some ∅) (Some {[ "review-settings" := true ]})
       [ {| title := "Privacy"; checklist := [] |} ]
     = Ok {| completed := 0; outOf := 0 |}
  /\ ~ (exists r : Progress,
           calculateProgress (Some ∅) (Some {[ "review-settings" := true ]})
             [ {| title := "Privacy"; checklist := [odd_item] |} ] = Ok r
           /\ outOf r = 1%Z).
Proof.
  split; [apply odd_item_unrecognized|].
  split; [vm_compute; reflexivity|].
  split; [vm_compute; reflexivity|].
  intros (r & E & O). vm_compute in E. injection E as <-. discriminate O.
Qed.

(** C7, amended.  An item whose priority matches none of the three tiers
    is left out by the filter for each of the three tiers: it is in no
    filtered checklist, and the filtered catalog, the per-tier gauge and the
    per-tier radar value are what they are without the item.  The unfiltered
    aggregation treats it as any other item: it adds 1 to [outOf] unless its
    id is marked ignored, and 1 to [completed] if its id is marked
    complete.  This last part is stated for an item whose id is no property
    name of [Object.prototype]; what the lookup does with such a name is
    left out. *)
Theorem unrecognized_priority_item (item : ChecklistItem) :
  unrecognized item ->
  (forall sections tier s',
      s' ∈ filterByPriority sections (priority_name tier) ->
      item ∉ checklist s')
  /\ (forall pre t before after post tier,
        filterByPriority (catalog_around pre t before [item] after post)
          (priority_name tier)
        = filterByPriority (catalog_around pre t before [] after post)
            (priority_name tier))
  /\ (forall checked ignored pre t before after post tier color,
        makeDataAndDrawChart (catalog_around pre t before [item] after post)
          checked ignored tier color
        = makeDataAndDrawChart (catalog_around pre t before [] after post)
            checked ignored tier color)
  /\ (forall checked ignored t before after tier,
        calculatePercentage checked ignored
          {| title := t; checklist := before ++ [item] ++ after |} tier
        = calculatePercentage checked ignored
            {| title := t; checklist := before ++ [] ++ after |} tier)
  /\ (own_id item ->
      forall completion ignore pre t before after post,
        exists r r0 : Progress,
          calculateProgress (Some completion) (Some ignore)
            (catalog_around pre t before [item] after post) = Ok r
          /\ calculateProgress (Some completion) (Some ignore)
               (catalog_around pre t before [] after post) = Ok r0
          /\ completed r
             = (completed r0
                + (if bool_decide (marked completion item) then 1 else 0))%Z
          /\ outOf r
             = (outOf r0 + 1
                - (if bool_decide (marked ignore item) then 1 else 0))%Z).
Proof.
  intros U.
  assert (forall tier : Priority, ~ in_tier (priority_name tier) item) as N.
  { intros tier. apply U. }
  split; [|split; [|split; [|split]]].
  - intros sections tier s'. by apply filterByPriority_not_in.
  - intros. by apply filterByPriority_drops.
  - intros. unfold makeDataAndDrawChart.
    by rewrite filterByPriority_drops.
  - intros. unfold calculatePercentage.
    change [ {| title := t; checklist := before ++ [item] ++ after |} ]
      with (catalog_around [] t before [item] after []).
    by rewrite filterByPriority_drops.
  - intros O completion ignore pre t before after post.
    destruct (calculateProgress_one_more completion ignore pre t before item
                after post) as (r & r0 & E & E0 & C & T).
    exists r, r0. split; [done|]. split; [done|].
    rewrite C, T.
    rewrite (bool_decide_ext _ _ (reads_true_marked completion item O)).
    by rewrite (bool_decide_ext _ _ (reads_true_marked ignore item O)).
Qed.

Lemma unrecognized_priority_item_witness :
  exists r r0 : Progress,
    calculateProgress (Some {[ "review-settings" := true ]}) (Some ∅)
      (catalog_around [] "Privacy" [] [odd_item] [] []) = Ok r
    /\ calculateProgress (Some {[ "review-settings" := true ]}) (Some ∅)
         (catalog_around [] "Privacy" [] [] [] []) = Ok r0
    /\ completed r
       = (completed r0
          + (if bool_decide (marked {[ "review-settings" := true ]} odd_item)
             then 1 else 0))%Z
    /\ outOf r
       = (outOf r0 + 1
          - (if bool_decide (marked ∅ odd_item) then 1 else 0))%Z.
Proof.
  apply (unrecognized_priority_item odd_item).
  - intros []; vm_compute; discriminate.
  - apply (bool_decide_unpack (own_id odd_item)). vm_compute. exact I.
Defined.

(** ** The radar dataset *)

(** The percentage of a progress result in the words of section 4.4:
    [outOf > 0 ? completed / outOf * 100 : 0]. *)
Definition percent_of (p : Progress) : float :=
  if (0 <? outOf p)%Z
  then (of_Z (completed p) / of_Z (outOf p) * hundred)%float
  else zero.

(** What [calculateProgress] settles to when the ignore snapshot is an
    object. *)
Definition progress_of (checked : option (gmap string bool))
    (ignore : gmap string bool) (sections : Sections) : Progress :=
  match checked with
  | Some completion => aggregate_code completion ignore sections
  | None => {| completed := 0; outOf := 0 |}
  end.

Lemma calculateProgress_total checked ignore sections :
  calculateProgress checked (Some ignore) sections
  = Ok (progress_of checked ignore sections).
Proof.
  destruct checked; [apply calculateProgress_present | reflexivity].
Qed.

Lemma calculatePercentage_total checked ignore section tier :
  calculatePercentage checked (Some ignore) section tier
  = Ok (percent_of
          (progress_of checked ignore
             (filterByPriority [section] (priority_name tier)))).
Proof. unfold calculatePercentage. by rewrite calculateProgress_total. Qed.

Lemma promise_all_total {A B} (f : A -> result B) (g : A -> B) (xs : list A) :
  (forall x, f x = Ok (g x)) -> promise_all f xs = Ok (map g xs).
Proof.
  intros E. induction xs as [|x xs IH]; [done|].
  cbn [promise_all]. rewrite E, IH. done.
Qed.

Lemma buildDataForPriority_total checked ignore sections tier color :
  buildDataForPriority checked (Some ignore) sections tier color
  = Ok {| borderWidth := 1;
          label := capitalize (priority_name tier);
          data :=
            map (fun section =>
                   percent_of
                     (progress_of checked ignore
                        (filterByPriority [section] (priority_name tier))))
                sections;
          backgroundColor := color |}.
Proof.
  unfold buildDataForPriority.
  rewrite (promise_all_total _ _ _
             (fun s => calculatePercentage_total checked ignore s tier)).
  done.
Qed.

(** The guard of the radar path: no item to count gives 0. *)
Lemma calculatePercentage_guard checked ignored section tier p :
  calculateProgress checked ignored
    (filterByPriority [section] (priority_name tier)) = Ok p ->
  outOf p = 0%Z ->
  calculatePercentage checked ignored section tier = Ok zero.
Proof.
  intros E O. unfold calculatePercentage. rewrite E.
  cbn [mbind result_bind mret result_ret]. by rewrite O.
Qed.

(** C4. For every list of sections, [makeRadarData] returns a dataset
    whose labels are the titles of the sections in catalog order, as many as
    there are sections, with one series per tier (advanced, optional,
    recommended); the values of a series are as many as the sections, and
    the i-th is [outOf > 0 ? completed / outOf * 100 : 0] for the result of
    [calculateProgress] on the i-th section alone, filtered to the tier of
    the series. *)
Theorem makeRadarData_spec
    (checked : option (gmap string bool)) (ignore : gmap string bool)
    (sections : Sections) :
  exists d : RadarChartData,
    makeRadarData checked (Some ignore) sections = Ok d
    /\ labels d = map title sections
    /\ length (labels d) = length sections
    /\ Forall2
         (fun (tier : Priority) (series : Dataset) =>
            label series = capitalize (priority_name tier)
            /\ length (data series) = length sections
            /\ Forall2
                 (fun (section : PscSection) (value : float) =>
                    exists p : Progress,
                      calculateProgress checked (Some ignore)
                        (filterByPriority [section] (priority_name tier))
                      = Ok p
                      /\ value
                         = if (0 <? outOf p)%Z
                           then (of_Z (completed p) / of_Z (outOf p)
                                 * hundred)%float
                           else zero)
                 sections (data series))
         [advanced; optional; recommended] (datasets d).
Proof.
  unfold makeRadarData. cbn [promise_all].
  rewrite !buildDataForPriority_total.
  cbn [mbind result_bind mret result_ret].
  eexists. split; [reflexivity|]. cbn [labels datasets].
  split; [done|]. split; [apply length_map|].
  assert (forall tier,
    Forall2
      (fun (section : PscSection) (value : float) =>
         exists p : Progress,
           calculateProgress checked (Some ignore)
             (filterByPriority [section] (priority_name tier)) = Ok p
           /\ value = percent_of p)
      sections
      (map (fun section =>
              percent_of
                (progress_of checked ignore
                   (filterByPriority [section] (priority_name tier))))
           sections)) as V.
  { intros tier. induction sections as [|s sections IH]; [constructor|].
    cbn [map]. constructor; [|apply IH].
    eexists. split; [apply calculateProgress_total | done]. }
  repeat constructor; cbn [label data]; try apply length_map; apply V.
Qed.

(** ** The gauge of a tier *)

(** The catalog of the end-to-end example of the specification: it has no
    advanced item. *)
Definition example_catalog : Sections :=
  [ {| title := "Auth";
       checklist :=
         [ {| point := "Use MFA"; priority := "recommended" |};
           {| point := "Rotate Keys"; priority := "optional" |} ] |} ].

(** The gauge path divides without a guard: zero of zero is NaN. *)
Lemma makeDataAndDrawChart_zero_of_zero checklists checked ignored tier color :
  calculateProgress checked ignored
    (filterByPriority checklists (priority_name tier))
  = Ok {| completed := 0; outOf := 0 |} ->
  makeDataAndDrawChart checklists checked ignored tier color
  = Ok {| percentage := nan;
          target := ("#" ++ priority_name tier ++ "-container")%string;
          color := color |}.
Proof. intros E. unfold makeDataAndDrawChart. rewrite E. reflexivity. Qed.

(** C1, on the code.  With the example catalog and the advanced tier the
    aggregation returns [outOf = 0]; the radar path hands on 0, but the gauge
    path hands NaN to [drawProgress], where the claim asks for 0. *)
Theorem gauge_percentage_is_nan_at_outOf_zero :
  calculateProgress (Some {[ "use-mfa" := true ]}) (Some ∅)
    (filterByPriority example_catalog (priority_name advanced))
  = Ok {| completed := 0; outOf := 0 |}
  /\ Forall (fun section =>
               calculatePercentage (Some {[ "use-mfa" := true ]}) (Some ∅)
                 section advanced = Ok zero)
            example_catalog
  /\ exists call : DrawCall,
       makeDataAndDrawChart example_catalog
         (Some {[ "use-mfa" := true ]}) (Some ∅)
         advanced (Some "hsl(var(--er, 0 91% 71%))") = Ok call
       /\ is_nan (percentage call) = true
       /\ percentage call <> zero.
Proof.
  split; [vm_compute; reflexivity|].
  split; [repeat constructor|].
  eexists. split; [apply makeDataAndDrawChart_zero_of_zero; vm_compute; reflexivity|].
  cbn [percentage]. split; [vm_compute; reflexivity|].
  intros E. apply (f_equal is_nan) in E. vm_compute in E. discriminate E.
Qed.

(** ** The end-to-end example of the specification *)

Example end_to_end :
  calculateProgress (Some {[ "use-mfa" := true ]}) (Some ∅) example_catalog
  = Ok {| completed := 1; outOf := 2 |}
  /\ filterByPriority example_catalog "recommended"
     = [ {| title := "Auth";
            checklist := [ {| point := "Use MFA";
                              priority := "recommended" |} ] |} ]
  /\ (d ← makeRadarData (Some {[ "use-mfa" := true ]}) (Some ∅) example_catalog;
      mret (labels d, map (fun s => (label s, data s)) (datasets d)))
     = Ok (["Auth"],
           [ ("Advanced", [zero]);
             ("Optional", [zero]);
             ("Recommended", [hundred]) ]).
Proof. repeat split; vm_compute; reflexivity. Qed.

(** * Further properties of the component *)

(** ** The aggregator without the ignore snapshot *)

Lemma forEach_sections_ignore_absent checked sections st :
  forEach
    (fun section => forEach (count_item None checked) (checklist section))
    sections st
  = match all_items sections with
    | [] => Ok st
    | _ :: _ => Throw TypeError
    end.
Proof.
  induction sections as [|s sections IH]; [done|].
  cbn [forEach]. unfold all_items. cbn [map concat].
  destruct (checklist s) as [|item items]; [apply IH | done].
Qed.

Lemma calculateProgress_ignore_absent_cases checked sections :
  calculateProgress checked None sections
  = match checked, all_items sections with
    | Some _, _ :: _ => Throw TypeError
    | _, _ => Ok {| completed := 0; outOf := 0 |}
    end.
Proof.
  destruct checked as [completion|]; [|by destruct (all_items sections)].
  unfold calculateProgress.
  destruct sections as [|s sections]; [done|]. cbn [length Nat.eqb].
  rewrite forEach_sections_ignore_absent, fold_left_lengths.
  rewrite sum_lengths_all_items.
  by destruct (all_items (s :: sections)).
Qed.

(** X1. When the ignore snapshot is [null], [calculateProgress] throws a
    [TypeError] exactly when the completion snapshot is present and the
    sections hold at least one item; in every other case it returns
    [{ completed: 0, outOf: 0 }]. *)
Theorem calculateProgress_ignore_absent
    (checked : option (gmap string bool)) (sections : Sections) :
  (calculateProgress checked None sections = Throw TypeError
   <-> is_Some checked /\ all_items sections <> [])
  /\ (calculateProgress checked None sections
      = Ok {| completed := 0; outOf := 0 |}
      <-> checked = None \/ all_items sections = []).
Proof.
  rewrite calculateProgress_ignore_absent_cases.
  destruct checked as [completion|], (all_items sections) as [|item items];
    repeat split; try done; try (intros [[c E] N]; done);
    try (intros [E|E]; done); eauto.
Qed.

(** ** Order and grouping of the items *)

Lemma count_read_perm state (xs ys : list ChecklistItem) :
  xs ≡ₚ ys -> count_read state xs = count_read state ys.
Proof. intros P. unfold count_read. by rewrite P. Qed.

(** X2. The result of [calculateProgress] depends on the items only, not on
    their order or on how they are grouped into sections: two catalogs with
    the same items up to a permutation give the same result (or both throw),
    whatever the snapshots. *)
Theorem calculateProgress_permutation
    (checked ignored : option (gmap string bool)) (xs ys : Sections) :
  all_items xs ≡ₚ all_items ys ->
  calculateProgress checked ignored xs = calculateProgress checked ignored ys.
Proof.
  intros P. destruct ignored as [ignore|].
  - rewrite !calculateProgress_total. f_equal.
    destruct checked as [completion|]; [|done].
    unfold progress_of, aggregate_code. rewrite !sum_lengths_all_items.
    rewrite (count_read_perm completion _ _ P),
      (count_read_perm ignore _ _ P), (Permutation_length P). done.
  - rewrite !calculateProgress_ignore_absent_cases.
    destruct (all_items xs) as [|x xs'], (all_items ys) as [|y ys']; try done.
    + by apply Permutation_nil_cons in P.
    + symmetry in P. by apply Permutation_nil_cons in P.
Qed.

Lemma calculateProgress_permutation_witness :
  calculateProgress (Some {[ "use-mfa" := true ]}) (Some ∅) example_catalog
  = calculateProgress (Some {[ "use-mfa" := true ]}) (Some ∅)
      [ {| title := "Keys";
           checklist := [ {| point := "Rotate Keys"; priority := "optional" |} ] |};
        {| title := "Login";
           checklist := [ {| point := "Use MFA"; priority := "recommended" |} ] |} ].
Proof.
  apply calculateProgress_permutation. unfold all_items. cbn [map concat app checklist example_catalog].
  apply perm_swap.
Defined.

(** ** Completed against eligible *)

(** The items whose id reads as truthy in both snapshots, and those whose
    id reads as truthy in neither. *)
Definition count_both (completion ignore : gmap string bool)
    (items : list ChecklistItem) : nat :=
  length (filter (fun item => reads_true completion item
                              /\ reads_true ignore item) items).

Definition count_neither (completion ignore : gmap string bool)
    (items : list ChecklistItem) : nat :=
  length (filter (fun item => ~ reads_true completion item
                              /\ ~ reads_true ignore item) items).

Lemma count_four_ways completion ignore (items : list ChecklistItem) :
  (count_read completion items + count_read ignore items
   + count_neither completion ignore items
   = length items + count_both completion ignore items)%nat.
Proof.
  unfold count_read, count_both, count_neither.
  induction items as [|item items IH]; [done|].
  rewrite !filter_cons.
  destruct (decide (reads_true completion item)) as [C|C],
    (decide (reads_true ignore item)) as [I|I];
    repeat
      (first [ rewrite decide_True by tauto | rewrite decide_False by tauto ]);
    cbn [length]; lia.
Qed.

(** X3. The distance between [outOf] and [completed] is the number of items
    whose id reads as truthy in neither snapshot minus the number of items
    whose id reads as truthy in both: [completed] exceeds [outOf] by at most
    the number of items read as both completed and ignored, and never when
    there is no such item. *)
Theorem outOf_minus_completed
    (completion ignore : gmap string bool) (sections : Sections) :
  exists r : Progress,
    calculateProgress (Some completion) (Some ignore) sections = Ok r
    /\ (outOf r - completed r
        = Z.of_nat (count_neither completion ignore (all_items sections))
          - Z.of_nat (count_both completion ignore (all_items sections)))%Z
    /\ (completed r
        <= outOf r
           + Z.of_nat (count_both completion ignore (all_items sections)))%Z.
Proof.
  eexists. split; [apply calculateProgress_present|].
  cbn [aggregate_code completed outOf]. rewrite sum_lengths_all_items.
  pose proof (count_four_ways completion ignore (all_items sections)). lia.
Qed.

(** ** Lists of sections put together *)

(** X4. [calculateProgress] is additive: the result for two lists of
    sections put one after the other is the sum, field by field, of the
    results for each. *)
Theorem calculateProgress_app
    (checked : option (gmap string bool)) (ignore : gmap string bool)
    (xs ys : Sections) :
  exists r rx ry : Progress,
    calculateProgress checked (Some ignore) (xs ++ ys) = Ok r
    /\ calculateProgress checked (Some ignore) xs = Ok rx
    /\ calculateProgress checked (Some ignore) ys = Ok ry
    /\ completed r = (completed rx + completed ry)%Z
    /\ outOf r = (outOf rx + outOf ry)%Z.
Proof.
  do 3 eexists. rewrite !calculateProgress_total.
  split; [done|]. split; [done|]. split; [done|].
  destruct checked as [completion|]; [|done].
  cbn [progress_of aggregate_code completed outOf].
  rewrite !sum_lengths_all_items, all_items_app, !count_read_app, length_app.
  lia.
Qed.

(** ** Everything done *)

Lemma count_read_all state (items : list ChecklistItem) :
  Forall (marked state) items -> count_read state items = length items.
Proof.
  unfold count_read. induction 1 as [|item items M _ IH]; [done|].
  rewrite filter_cons, decide_True by by apply marked_reads_true.
  cbn [length]. by rewrite IH.
Qed.

Lemma count_read_none state (items : list ChecklistItem) :
  Forall (fun item => ~ reads_true state item) items ->
  count_read state items = 0%nat.
Proof.
  unfold count_read. induction 1 as [|item items M _ IH]; [done|].
  rewrite filter_cons, decide_False by done. done.
Qed.

(** X5. When the id of every item is marked complete and the id of no item
    reads as truthy in the ignore snapshot (it is not marked ignored, and it
    is no property name of [Object.prototype] that the snapshot lacks),
    [completed] and [outOf] are both the number of items. *)
Theorem calculateProgress_all_done
    (completion ignore : gmap string bool) (sections : Sections) :
  Forall (marked completion) (all_items sections) ->
  Forall (fun item => ~ reads_true ignore item) (all_items sections) ->
  calculateProgress (Some completion) (Some ignore) sections
  = Ok {| completed := Z.of_nat (length (all_items sections));
          outOf := Z.of_nat (length (all_items sections)) |}.
Proof.
  intros C I. rewrite calculateProgress_present. unfold aggregate_code.
  rewrite sum_lengths_all_items, count_read_all, count_read_none by done.
  do 2 f_equal. lia.
Qed.

Lemma calculateProgress_all_done_witness :
  calculateProgress
    (Some {[ "use-mfa" := true; "rotate-keys" := true ]})
    (Some {[ "use-mfa" := false ]}) example_catalog
  = Ok {| completed := 2; outOf := 2 |}.
Proof.
  apply (calculateProgress_all_done
           {[ "use-mfa" := true; "rotate-keys" := true ]}
           {[ "use-mfa" := false ]} example_catalog);
    repeat constructor; vm_compute; congruence.
Defined.

(** ** Marking an id *)

(** The items with the given id that do not read as truthy in the state
    yet. *)
Definition count_fresh (id : string) (state : gmap string bool)
    (items : list ChecklistItem) : nat :=
  length (filter (fun item => normalize (point item) = id
                              /\ ~ reads_true state item) items).

Lemma count_read_insert id state (items : list ChecklistItem) :
  count_read (<[id := true]> state) items
  = (count_read state items + count_fresh id state items)%nat.
Proof.
  unfold count_read, count_fresh.
  induction items as [|item items IH]; [done|].
  rewrite !filter_cons.
  destruct (decide (normalize (point item) = id)) as [E|E].
  - rewrite (decide_True (P := reads_true (<[id:=true]> state) item)).
    2:{ unfold reads_true, get_property. rewrite E.
        by rewrite lookup_insert_eq. }
    destruct (decide (reads_true state item)) as [M|M].
    + rewrite decide_False by tauto. cbn [length]. lia.
    + rewrite decide_True by tauto. cbn [length]. lia.
  - rewrite (decide_False (P := _ /\ _)) by tauto.
    assert (reads_true (<[id:=true]> state) item <-> reads_true state item)
      as M.
    { unfold reads_true, get_property. by rewrite lookup_insert_ne. }
    destruct (decide (reads_true state item)) as [M'|M'].
    + rewrite decide_True by tauto. cbn [length]. lia.
    + rewrite decide_False by tauto. lia.
Qed.

(** X6. Setting an id to [true] in the completion snapshot raises
    [completed] by the number of items with this id that did not read as
    truthy before (every item that shares the id is counted; none when the
    id already read as truthy) and leaves [outOf] as it is; setting it in
    the ignore snapshot lowers [outOf] by that number and leaves [completed]
    as it is. *)
Theorem calculateProgress_mark
    (completion ignore : gmap string bool) (id : string)
    (sections : Sections) :
  exists r rc ri : Progress,
    calculateProgress (Some completion) (Some ignore) sections = Ok r
    /\ calculateProgress (Some (<[id := true]> completion)) (Some ignore)
         sections = Ok rc
    /\ calculateProgress (Some completion) (Some (<[id := true]> ignore))
         sections = Ok ri
    /\ completed rc
       = (completed r
          + Z.of_nat (count_fresh id completion (all_items sections)))%Z
    /\ outOf rc = outOf r
    /\ completed ri = completed r
    /\ outOf ri
       = (outOf r - Z.of_nat (count_fresh id ignore (all_items sections)))%Z.
Proof.
  do 3 eexists. rewrite !calculateProgress_present.
  split; [done|]. split; [done|]. split; [done|].
  cbn [aggregate_code completed outOf]. rewrite !count_read_insert. lia.
Qed.

(** ** More on the priority filter *)

Lemma normalize_idempotent (x : string) : normalize (normalize x) = normalize x.
Proof.
  rewrite !normalize_units, map_units_compose.
  apply map_units_ext, normalize_unit_idempotent.
Qed.

Lemma filterByPriority_ext sections t1 t2 :
  normalize t1 = normalize t2 ->
  filterByPriority sections t1 = filterByPriority sections t2.
Proof. intros E. unfold filterByPriority. by rewrite E. Qed.

(** X7. The filter reads the tier up to normalization: a tier and its
    normalized form select the same items, and so does the capitalized
    name of a tier (the label of its radar series, the spelling of the
    catalog) and the tier itself. *)
Theorem filterByPriority_tier_spelling (sections : Sections) :
  (forall tier : string,
      filterByPriority sections (normalize tier)
      = filterByPriority sections tier)
  /\ (forall tier : Priority,
        filterByPriority sections (capitalize (priority_name tier))
        = filterByPriority sections (priority_name tier)).
Proof.
  split.
  - intros tier. apply filterByPriority_ext, normalize_idempotent.
  - intros tier. apply filterByPriority_ext. by destruct tier.
Qed.

Lemma filter_in_tier_twice t1 t2 (items : list ChecklistItem) :
  filter (in_tier t2) (filter (in_tier t1) items)
  = if decide (normalize t1 = normalize t2)
    then filter (in_tier t1) items else [].
Proof.
  induction items as [|item items IH]; [by case_decide|].
  rewrite filter_cons. destruct (decide (in_tier t1 item)) as [I1|I1].
  - rewrite filter_cons, IH. unfold in_tier in *.
    case_decide as E.
    + rewrite decide_True by congruence. done.
    + rewrite decide_False by congruence. done.
  - rewrite IH. done.
Qed.

(** X8. Filtering twice: by the same tier (up to normalization) the second
    filter changes nothing, so the filter is idempotent; by two different
    tiers every checklist comes out empty, the sections and their titles
    staying in place. *)
Theorem filterByPriority_twice (sections : Sections) (t1 t2 : string) :
  filterByPriority (filterByPriority sections t1) t2
  = if decide (normalize t1 = normalize t2)
    then filterByPriority sections t1
    else map (fun section => {| title := title section; checklist := [] |})
             sections.
Proof.
  induction sections as [|s sections IH]; [by case_decide|].
  rewrite !filterByPriority_cons, IH. cbn [title checklist].
  rewrite filter_in_tier_twice.
  by case_decide.
Qed.

Lemma all_items_filterByPriority sections tier :
  all_items (filterByPriority sections tier)
  = filter (in_tier tier) (all_items sections).
Proof.
  unfold all_items. induction sections as [|s sections IH]; [done|].
  rewrite filterByPriority_cons. cbn [map concat checklist].
  by rewrite filter_app, IH.
Qed.

(** X9. Aggregating a filtered catalog counts the items of the tier among
    all the items of the catalog: [completed] is the number of items of the
    tier whose id reads as truthy in the completion snapshot, [outOf] the
    number of items of the tier minus those of them whose id reads as truthy
    in the ignore snapshot. *)
Theorem calculateProgress_filterByPriority
    (completion ignore : gmap string bool) (sections : Sections)
    (tier : string) :
  calculateProgress (Some completion) (Some ignore)
    (filterByPriority sections tier)
  = Ok {| completed :=
            Z.of_nat
              (count_read completion
                 (filter (in_tier tier) (all_items sections)));
          outOf :=
            Z.of_nat (length (filter (in_tier tier) (all_items sections)))
            - Z.of_nat
                (count_read ignore
                   (filter (in_tier tier) (all_items sections))) |}.
Proof.
  rewrite calculateProgress_present. unfold aggregate_code.
  by rewrite sum_lengths_all_items, all_items_filterByPriority.
Qed.

(** ** The tiers as a partition *)

Lemma tier_exclusive item (t1 t2 : Priority) :
  in_tier (priority_name t1) item -> in_tier (priority_name t2) item ->
  t1 = t2.
Proof.
  unfold in_tier. intros E1 E2. rewrite E1 in E2.
  destruct t1, t2; try done; vm_compute in E2; discriminate E2.
Qed.

#[global] Instance unrecognized_dec item : Decision (unrecognized item).
Proof.
  refine (cast_if
            (decide (~ in_tier (priority_name recommended) item
                     /\ ~ in_tier (priority_name optional) item
                     /\ ~ in_tier (priority_name advanced) item)));
    unfold unrecognized, in_tier in *.
  - abstract (intros []; tauto).
  - abstract (intros U; apply n; repeat split; apply U).
Defined.

Lemma tier_partition (items : list ChecklistItem) :
  items
  ≡ₚ filter (in_tier (priority_name recommended)) items
     ++ filter (in_tier (priority_name optional)) items
     ++ filter (in_tier (priority_name advanced)) items
     ++ filter unrecognized items.
Proof.
  induction items as [|item items IH]; [done|].
  rewrite !filter_cons.
  destruct (decide (in_tier (priority_name recommended) item)) as [R|R].
  { rewrite !decide_False.
    - cbn [app]. by constructor.
    - intros U. by apply (U recommended).
    - intros A. by pose proof (tier_exclusive _ _ _ R A).
    - intros O. by pose proof (tier_exclusive _ _ _ R O). }
  destruct (decide (in_tier (priority_name optional) item)) as [O|O].
  { rewrite !decide_False.
    - rewrite <- app_comm_cons, <- Permutation_middle. by constructor.
    - intros U. by apply (U optional).
    - intros A. by pose proof (tier_exclusive _ _ _ O A). }
  destruct (decide (in_tier (priority_name advanced) item)) as [A|A].
  { rewrite decide_False.
    - rewrite <- app_comm_cons, app_assoc, <- Permutation_middle,
        <- app_assoc. by constructor.
    - intros U. by apply (U advanced). }
  rewrite decide_True.
  - rewrite !app_assoc, <- Permutation_middle, <- !app_assoc.
    by constructor.
  - intros []; done.
Qed.

(** X10. The three per-tier results and the items of no known tier make up
    the total: [completed] over the whole catalog is the sum of the three
    per-tier values plus the unrecognized items read as complete, and
    [outOf] is the sum of the three per-tier values plus the unrecognized
    items not read as ignored. *)
Theorem calculateProgress_tier_sum
    (completion ignore : gmap string bool) (sections : Sections) :
  exists total rec opt adv : Progress,
    calculateProgress (Some completion) (Some ignore) sections = Ok total
    /\ calculateProgress (Some completion) (Some ignore)
         (filterByPriority sections (priority_name recommended)) = Ok rec
    /\ calculateProgress (Some completion) (Some ignore)
         (filterByPriority sections (priority_name optional)) = Ok opt
    /\ calculateProgress (Some completion) (Some ignore)
         (filterByPriority sections (priority_name advanced)) = Ok adv
    /\ completed total
       = (completed rec + completed opt + completed adv
          + Z.of_nat
              (count_read completion
                 (filter unrecognized (all_items sections))))%Z
    /\ outOf total
       = (outOf rec + outOf opt + outOf adv
          + (Z.of_nat (length (filter unrecognized (all_items sections)))
             - Z.of_nat
                 (count_read ignore
                    (filter unrecognized (all_items sections)))))%Z.
Proof.
  do 4 eexists. rewrite !calculateProgress_filterByPriority.
  split; [apply calculateProgress_present|].
  split; [done|]. split; [done|]. split; [done|].
  cbn [aggregate_code completed outOf]. rewrite sum_lengths_all_items.
  pose proof (tier_partition (all_items sections)) as P.
  rewrite (count_read_perm completion _ _ P) at 1.
  rewrite (count_read_perm ignore _ _ P) at 1.
  rewrite (Permutation_length P) at 1.
  rewrite !count_read_app, !length_app. lia.
Qed.

(** ** The radar dataset without the ignore snapshot *)

(** No section has an item of the tier. *)
Definition tier_empty (tier : Priority) (sections : Sections) : Prop :=
  Forall (fun section =>
            filter (in_tier (priority_name tier)) (checklist section) = [])
         sections.

#[global] Instance tier_empty_dec tier sections :
  Decision (tier_empty tier sections).
Proof. unfold tier_empty. apply _. Defined.

(** The series of a tier with the value 0 for every section. *)
Definition zero_series (sections : Sections) (tier : Priority)
    (color : string) : Dataset :=
  {| borderWidth := 1;
     label := capitalize (priority_name tier);
     data := map (fun _ => zero) sections;
     backgroundColor := color |}.

Definition zero_radar (sections : Sections) : RadarChartData :=
  {| labels := map title sections;
     datasets :=
       [ zero_series sections advanced "hsl(0 91% 71%/75%)";
         zero_series sections optional "hsl(43 96% 56%/75%)";
         zero_series sections recommended "hsl(158 64% 52%/75%)" ] |}.

Lemma filter_nil_Forall {A} (P : A -> Prop) `{!forall x, Decision (P x)}
    (xs : list A) :
  filter P xs = [] <-> Forall (fun x => ~ P x) xs.
Proof.
  induction xs as [|x xs IH]; [by split|].
  rewrite filter_cons, Forall_cons. case_decide; [|tauto].
  split; [done | tauto].
Qed.

Lemma promise_all_Forall {A B} (f : A -> result B) (g : A -> B) (xs : list A) :
  Forall (fun x => f x = Ok (g x)) xs -> promise_all f xs = Ok (map g xs).
Proof.
  induction 1 as [|x xs E _ IH]; [done|].
  cbn [promise_all]. by rewrite E, IH.
Qed.

Lemma promise_all_Exists {A B} (f : A -> result B) (xs : list A) :
  Exists (fun x => f x = Throw TypeError) xs ->
  promise_all f xs = Throw TypeError.
Proof.
  induction 1 as [x xs E|x xs _ IH]; cbn [promise_all].
  - by rewrite E.
  - destruct (f x) as [y|[]]; [|done]. cbn [mbind result_bind].
    by rewrite IH.
Qed.

Lemma calculatePercentage_ignore_absent checked section tier :
  calculatePercentage checked None section tier
  = match checked,
          filter (in_tier (priority_name tier)) (checklist section) with
    | Some _, _ :: _ => Throw TypeError
    | _, _ => Ok zero
    end.
Proof.
  unfold calculatePercentage.
  rewrite calculateProgress_ignore_absent_cases, all_items_filterByPriority.
  unfold all_items. cbn [map concat]. rewrite app_nil_r.
  destruct checked,
    (filter (in_tier (priority_name tier)) (checklist section)); done.
Qed.

Lemma buildDataForPriority_ignore_absent checked sections tier color :
  buildDataForPriority checked None sections tier color
  = if decide (checked = None \/ tier_empty tier sections)
    then Ok (zero_series sections tier color)
    else Throw TypeError.
Proof.
  unfold buildDataForPriority. case_decide as H.
  - rewrite (promise_all_Forall _ (fun _ => zero)); [done|].
    destruct H as [->|H]; [by apply Forall_true|].
    eapply Forall_impl; [exact H|]. intros s E. cbn beta in E.
    rewrite calculatePercentage_ignore_absent, E. by destruct checked.
  - rewrite promise_all_Exists; [done|].
    destruct checked as [completion|]; [|by destruct H; left].
    assert (~ tier_empty tier sections) as N by tauto.
    apply not_Forall_Exists in N; [|apply _].
    eapply Exists_impl; [exact N|]. intros s E. cbn beta in E.
    rewrite calculatePercentage_ignore_absent. unfold compose in E.
    by destruct (filter (in_tier (priority_name tier)) (checklist s)).
Qed.

Lemma unrecognized_tier_empty sections :
  Forall unrecognized (all_items sections)
  <-> forall tier, tier_empty tier sections.
Proof.
  unfold tier_empty, all_items.
  induction sections as [|s sections IH]; [by split; intros; constructor|].
  cbn [map concat]. rewrite Forall_app, IH. split.
  - intros [U T] tier. constructor; [|apply T].
    apply filter_nil_Forall. eapply Forall_impl; [exact U|].
    intros item Ui. apply Ui.
  - intros T. split.
    + apply Forall_forall. intros item M tier.
      specialize (T tier). apply Forall_cons in T as [E _].
      apply filter_nil_Forall in E. rewrite Forall_forall in E.
      by apply E.
    + intros tier. specialize (T tier). by apply Forall_cons in T as [_ T].
Qed.

Lemma makeRadarData_ignore_absent_cases checked sections :
  makeRadarData checked None sections
  = if decide (checked = None \/ Forall unrecognized (all_items sections))
    then Ok (zero_radar sections)
    else Throw TypeError.
Proof.
  unfold makeRadarData. cbn [promise_all].
  rewrite !buildDataForPriority_ignore_absent.
  pose proof (unrecognized_tier_empty sections) as U.
  destruct (decide (checked = None)) as [->|N].
  { rewrite !decide_True by by left. reflexivity. }
  destruct (decide (tier_empty advanced sections)) as [A|A].
  2:{ rewrite !(decide_False (P := _ \/ tier_empty advanced _)) by tauto.
      rewrite (decide_False (P := _ \/ Forall _ _)); [reflexivity|].
      intros [E|T]; [done|]. by apply A, U. }
  rewrite (decide_True (P := _ \/ tier_empty advanced _)) by tauto.
  destruct (decide (tier_empty optional sections)) as [O|O].
  2:{ rewrite (decide_False (P := _ \/ tier_empty optional _)) by tauto.
      rewrite (decide_False (P := _ \/ Forall _ _)); [reflexivity|].
      intros [E|T]; [done|]. by apply O, U. }
  rewrite (decide_True (P := _ \/ tier_empty optional _)) by tauto.
  destruct (decide (tier_empty recommended sections)) as [R|R].
  2:{ rewrite (decide_False (P := _ \/ tier_empty recommended _)) by tauto.
      rewrite (decide_False (P := _ \/ Forall _ _)); [reflexivity|].
      intros [E|T]; [done|]. by apply R, U. }
  rewrite (decide_True (P := _ \/ tier_empty recommended _)) by tauto.
  rewrite (decide_True (P := _ \/ Forall _ _)); [reflexivity|].
  right. apply U. intros []; done.
Qed.

(** X11. When the ignore snapshot is [null], [makeRadarData] rejects with a
    [TypeError] exactly when the completion snapshot is present and some
    item has the priority of one of the three tiers; otherwise it returns
    the dataset with the section titles as labels and 0 for every section in
    each of the three series.  Items of no known tier never make it
    fail. *)
Theorem makeRadarData_ignore_absent
    (checked : option (gmap string bool)) (sections : Sections) :
  (makeRadarData checked None sections = Throw TypeError
   <-> is_Some checked /\ ~ Forall unrecognized (all_items sections))
  /\ (makeRadarData checked None sections = Ok (zero_radar sections)
      <-> checked = None \/ Forall unrecognized (all_items sections)).
Proof.
  rewrite makeRadarData_ignore_absent_cases. case_decide as H.
  - split.
    + split; [discriminate|]. intros [[c ->] N]. exfalso.
      destruct H as [E|U]; [done | by apply N].
    + split; [intros _; exact H | reflexivity].
  - split.
    + split; [|reflexivity]. intros _. split; [|tauto].
      destruct checked; [by eexists | tauto].
    + split; [discriminate | intros H'; by destruct H].
Qed.

(** ** The gauge of a tier, again *)

Lemma calculateProgress_empty_checklists checked ignored sections :
  Forall (fun s => checklist s = []) sections ->
  calculateProgress checked ignored sections
  = Ok {| completed := 0; outOf := 0 |}.
Proof.
  intros E. unfold calculateProgress. destruct checked as [c|]; [|done].
  destruct sections as [|s sections]; [done|].
  cbn [length Nat.eqb]. rewrite forEach_no_items by done.
  cbn [mbind result_bind mret result_ret totalComplete totalItems].
  by rewrite fold_left_lengths, sum_lengths_no_items.
Qed.

Lemma filterByPriority_tier_empty tier sections :
  tier_empty tier sections ->
  Forall (fun s => checklist s = [])
         (filterByPriority sections (priority_name tier)).
Proof.
  unfold tier_empty. induction 1 as [|s sections E _ IH]; [constructor|].
  rewrite filterByPriority_cons. by constructor.
Qed.

(** X12. Whenever the completion snapshot is absent, or the catalog has no
    item of the tier, [makeDataAndDrawChart] calls [drawProgress] with NaN
    as the percentage, whatever the ignore snapshot is; nothing is
    thrown. *)
Theorem makeDataAndDrawChart_nan
    (checklists : Sections) (checked ignored : option (gmap string bool))
    (tier : Priority) (color : option string) :
  checked = None \/ tier_empty tier checklists ->
  makeDataAndDrawChart checklists checked ignored tier color
  = Ok {| percentage := nan;
          target := ("#" ++ priority_name tier ++ "-container")%string;
          color := color |}.
Proof.
  intros H. apply makeDataAndDrawChart_zero_of_zero.
  destruct H as [->|E]; [apply calculateProgress_absent|].
  by apply calculateProgress_empty_checklists, filterByPriority_tier_empty.
Qed.

Lemma makeDataAndDrawChart_nan_witness :
  makeDataAndDrawChart example_catalog None None optional None
  = Ok {| percentage := nan; target := "#optional-container"; color := None |}
  /\ makeDataAndDrawChart
       [ {| title := "Privacy"; checklist := [odd_item] |} ]
       (Some ∅) None recommended (Some "hsl(var(--su, 158 64% 52%))")
     = Ok {| percentage := nan;
             target := "#recommended-container";
             color := Some "hsl(var(--su, 158 64% 52%))" |}.
Proof.
  split.
  - apply makeDataAndDrawChart_nan. left. reflexivity.
  - apply makeDataAndDrawChart_nan. right. repeat constructor.
Defined.

(** X13. On a catalog of one section, whenever the aggregation of the tier
    has [outOf > 0], the percentage of the gauge is [Math.round] of the
    value the radar shows for that section and tier. *)
Theorem gauge_rounds_radar_value
    (checked ignored : option (gmap string bool)) (section : PscSection)
    (tier : Priority) (color : option string) (p : Progress) :
  calculateProgress checked ignored
    (filterByPriority [section] (priority_name tier)) = Ok p ->
  (0 < outOf p)%Z ->
  exists (value : float) (call : DrawCall),
    calculatePercentage checked ignored section tier = Ok value
    /\ makeDataAndDrawChart [section] checked ignored tier color = Ok call
    /\ percentage call = Math_round value.
Proof.
  intros E O. unfold calculatePercentage, makeDataAndDrawChart. rewrite E.
  cbn [mbind result_bind mret result_ret].
  do 2 eexists. split; [reflexivity|]. split; [reflexivity|].
  cbn [percentage]. apply Z.ltb_lt in O. by rewrite O.
Qed.

Lemma gauge_rounds_radar_value_witness :
  exists (value : float) (call : DrawCall),
    calculatePercentage (Some {[ "use-mfa" := true ]}) (Some ∅)
      {| title := "Auth";
         checklist := [ {| point := "Use MFA"; priority := "Recommended" |};
                        {| point := "Use a Password Manager";
                           priority := "Recommended" |};
                        {| point := "Use Strong Passwords";
                           priority := "Recommended" |} ] |}
      recommended = Ok value
    /\ makeDataAndDrawChart
         [ {| title := "Auth";
              checklist := [ {| point := "Use MFA"; priority := "Recommended" |};
                             {| point := "Use a Password Manager";
                                priority := "Recommended" |};
                             {| point := "Use Strong Passwords";
                                priority := "Recommended" |} ] |} ]
         (Some {[ "use-mfa" := true ]}) (Some ∅) recommended None = Ok call
    /\ percentage call = Math_round value.
Proof.
  apply (gauge_rounds_radar_value _ _ _ _ _ {| completed := 1; outOf := 3 |});
    [vm_compute; reflexivity | reflexivity].
Defined.

(** ** More on the id normalizer *)

(** The code units of a string. *)
Fixpoint units (s : string) : list ascii :=
  match s with
  | EmptyString => []
  | String c s' => c :: units s'
  end.

Lemma units_map_units f s : units (map_units f s) = map f (units s).
Proof. induction s as [|c s IH]; simpl; [done | by rewrite IH]. Qed.

Lemma normalize_unit_shape (c : ascii) :
  normalize_unit c <> " "%char
  /\ lower_unit (normalize_unit c) = normalize_unit c.
Proof.
  destruct c as [[] [] [] [] [] [] [] []]; vm_compute; split; congruence.
Qed.

(** X14. No code unit of a normalized id is a space, and none is a capital
    letter (a code unit that [toLowerCase] would change). *)
Theorem normalize_shape (x : string) :
  Forall (fun c => c <> " "%char /\ lower_unit c = c) (units (normalize x)).
Proof.
  rewrite normalize_units, units_map_units. apply Forall_fmap, Forall_true.
  intros c. apply normalize_unit_shape.
Qed.

Lemma normalize_unit_absorbs (c : ascii) :
  normalize_unit (lower_unit c) = normalize_unit c
  /\ normalize_unit (hyphen_unit c) = normalize_unit c.
Proof.
  destruct c as [[] [] [] [] [] [] [] []]; vm_compute; split; reflexivity.
Qed.

(** X15. Texts that differ only in letter case, or in hyphens written for
    spaces, get the same id: lower-casing a text, or replacing its spaces by
    hyphens, before it is normalized changes nothing. *)
Theorem normalize_collisions (x : string) :
  normalize (toLowerCase x) = normalize x
  /\ normalize (replace_spaces x) = normalize x.
Proof.
  rewrite !normalize_units. unfold toLowerCase, replace_spaces.
  rewrite !map_units_compose. split.
  - apply map_units_ext. intros c. apply normalize_unit_absorbs.
  - apply map_units_ext. intros c. apply normalize_unit_absorbs.
Qed.

(** * Drawing a gauge ([drawProgress]) *)

(** ** Trimming *)

Module JsTrim.

(** The white space and line terminators of the language among the code
    units below 256: TAB, LF, VT, FF, CR, SP and NBSP. *)
Definition is_whitespace (c : ascii) : bool :=
  let n := N_of_ascii c in
  ((9 <=? n) && (n <=? 13) || (n =? 32) || (n =? 160))%N.

Fixpoint trimStart (s : string) : string :=
  match s with
  | EmptyString => EmptyString
  | String c s' => if is_whitespace c then trimStart s' else s
  end.

Fixpoint trimEnd (s : string) : string :=
  match s with
  | EmptyString => EmptyString
  | String c s' =>
      match trimEnd s' with
      | EmptyString => if is_whitespace c then EmptyString
                       else String c EmptyString
      | r => String c r
      end
  end.

(** [s.trim()]. *)
Definition trim (s : string) : string := trimEnd (trimStart s).

End JsTrim.

Import JsTrim.

(** ** The calls on the bar, and the configuration *)

(** The text [setText] receives: nothing, or the template [`${value}%`]
    for the number it is filled with. *)
Inductive BarText :=
| NoText
| Percent (value : float).

(** What the step function does to the bar, in order:
    [bar.path.setAttribute('stroke', c)] and [bar.setText(t)]. *)
Inductive BarCall :=
| SetStroke (c : string)
| SetText (t : BarText).

(** A number used as a condition: 0, -0 and NaN are falsy. *)
Definition truthy_number (x : float) : bool :=
  negb (PrimFloat.is_zero x || PrimFloat.is_nan x).

Record LabelStyles := {
  style_color : string;
  style_position : string;
  style_right : string;
  style_top : string
}.

Record ProgressConfig := {
  strokeWidth : Z;
  trailWidth : Z;
  config_color : string;
  trailColor : string;
  text_style : LabelStyles;
  from_color : string;
  to_color : string;
  step : string -> float -> list BarCall
}.

(** [new ProgressBar.SemiCircle(target, progressConfig)] followed by
    [line.animate(progress)]. *)
Record Drawing := {
  selector : string;
  config : ProgressConfig;
  animateTo : float
}.

Section Drawing.

(** [getComputedStyle(document.documentElement).getPropertyValue]: the
    value of a property, the empty string when it is not set. *)
Context (getPropertyValue : string -> string).

Definition getCssVariableValue (variableName fallback : string) : string :=
  match trim (getPropertyValue variableName) with
  | EmptyString => fallback
  | v => v
  end.

(** The step function of [drawProgress]; [state_color] is [state.color]
    and [bar_value] is [bar.value()]. *)
Definition stepFunction (percentage : float) (primaryColor : string)
    (state_color : string) (bar_value : float) : list BarCall :=
  let value := Math_round (bar_value * hundred)%float in
  [ SetStroke state_color;
    SetText (if truthy_number value then Percent value else NoText) ]
  ++ (if (percentage <=? value)%float then [SetStroke primaryColor] else []).

Definition drawProgress (percentage : float) (target : string)
    (color : option string) : Drawing :=
  let primaryColor :=
    match color with
    | Some (String c s) => String c s
    | _ => "hsl(var(--pf, 220, 13%, 69%))"
    end in
  let foregroundColor := "hsl(var(--nc, 220, 13%, 69%))" in
  let red := ("hsl(" ++ getCssVariableValue "--er" "0 91% 71%" ++ ")")%string in
  let green :=
    ("hsl(" ++ getCssVariableValue "--su" "158 64% 52%" ++ ")")%string in
  let labelStyles :=
    {| style_color := foregroundColor; style_position := "absolute";
       style_right := "0.5rem"; style_top := "2rem" |} in
  let progressConfig :=
    {| strokeWidth := 6;
       trailWidth := 3;
       config_color := primaryColor;
       trailColor := foregroundColor;
       text_style := labelStyles;
       from_color := red;
       to_color := green;
       step := stepFunction percentage primaryColor |} in
  {| selector := target;
     config := progressConfig;
     animateTo := (percentage / hundred)%float |}.

(** [makeDataAndDrawChart] with the call of [drawProgress] made. *)
Definition drawChart (checklists : Sections)
    (checked ignored : option (gmap string bool)) (tier : Priority)
    (color : option string) : result Drawing :=
  call ← makeDataAndDrawChart checklists checked ignored tier color;
  match call with
  | {| percentage := percent; target := target; color := color |} =>
      mret (drawProgress percent target color)
  end.

End Drawing.

(** ** Colours of the gauge *)

(** Every code unit of the string is white space. *)
Definition blank (s : string) : bool := forallb is_whitespace (units s).

Lemma trimEnd_empty (s : string) :
  trimEnd s = EmptyString <-> blank s = true.
Proof.
  unfold blank. induction s as [|c s IH]; [done|].
  cbn [trimEnd units forallb]. rewrite andb_true_iff, <- IH.
  destruct (trimEnd s) as [|c' r], (is_whitespace c); split; try done;
    intros [? ?]; done.
Qed.

Lemma trimStart_blank (s : string) : blank (trimStart s) = blank s.
Proof.
  unfold blank. induction s as [|c s IH]; [done|].
  cbn [trimStart]. destruct (is_whitespace c) eqn:W.
  - rewrite IH. cbn [units forallb]. by rewrite W.
  - done.
Qed.

Lemma trim_empty (s : string) : trim s = EmptyString <-> blank s = true.
Proof. unfold trim. by rewrite trimEnd_empty, trimStart_blank. Qed.

Lemma getCssVariableValue_cases getPropertyValue variableName fallback :
  getCssVariableValue getPropertyValue variableName fallback
  = if blank (getPropertyValue variableName) then fallback
    else trim (getPropertyValue variableName).
Proof.
  unfold getCssVariableValue.
  pose proof (trim_empty (getPropertyValue variableName)) as T.
  destruct (trim (getPropertyValue variableName)) as [|c r],
    (blank (getPropertyValue variableName)); try done.
  - by destruct T as [T _]; specialize (T eq_refl).
  - by destruct T as [_ T]; specialize (T eq_refl).
Qed.

Lemma hsl_not_empty (v : string) :
  v <> EmptyString -> ("hsl(" ++ v ++ ")")%string <> "hsl()".
Proof.
  intros N E. cbn in E. injection E as E.
  destruct v as [|c v]; [done|]. cbn in E. injection E as _ E.
  by destruct v.
Qed.

(** X16. The two ends of the colour scale of a gauge come from the CSS
    variables [--er] and [--su], without the white space around them, and
    from the built-in values when the variable is unset or blank; so neither
    is ever the malformed [hsl()]. *)
Theorem drawProgress_scale_colours
    (getPropertyValue : string -> string) (percentage : float)
    (target : string) (color : option string) :
  from_color (config (drawProgress getPropertyValue percentage target color))
  = ("hsl("
     ++ (if blank (getPropertyValue "--er") then "0 91% 71%"
         else trim (getPropertyValue "--er"))
     ++ ")")%string
  /\ to_color (config (drawProgress getPropertyValue percentage target color))
     = ("hsl("
        ++ (if blank (getPropertyValue "--su") then "158 64% 52%"
            else trim (getPropertyValue "--su"))
        ++ ")")%string
  /\ from_color (config (drawProgress getPropertyValue percentage target color))
     <> "hsl()"
  /\ to_color (config (drawProgress getPropertyValue percentage target color))
     <> "hsl()".
Proof.
  unfold drawProgress. cbn [config from_color to_color].
  rewrite !getCssVariableValue_cases.
  split; [done|]. split; [done|].
  split; apply hsl_not_empty.
  - destruct (blank (getPropertyValue "--er")) eqn:B; [done|].
    intros T. apply trim_empty in T. congruence.
  - destruct (blank (getPropertyValue "--su")) eqn:B; [done|].
    intros T. apply trim_empty in T. congruence.
Qed.

(** ** The step function *)

Lemma nan_leb (x : float) : (nan <=? x)%float = false.
Proof. rewrite FloatAxioms.leb_spec. reflexivity. Qed.

Lemma stepFunction_nan primaryColor state_color bar_value :
  stepFunction nan primaryColor state_color bar_value
  = [ SetStroke state_color;
      SetText (if truthy_number (Math_round (bar_value * hundred)%float)
               then Percent (Math_round (bar_value * hundred)%float)
               else NoText) ].
Proof. unfold stepFunction. by rewrite nan_leb. Qed.

(** X17. Whenever the completion snapshot is absent, or the catalog has no
    item of the tier, the gauge of the tier is drawn with NaN: the bar is
    animated towards NaN, and at every step of the animation the stroke is
    set to the colour of the scale and the text, and never to the colour of
    the gauge. *)
Theorem drawChart_nan
    (getPropertyValue : string -> string) (checklists : Sections)
    (checked ignored : option (gmap string bool)) (tier : Priority)
    (color : option string) :
  checked = None \/ tier_empty tier checklists ->
  exists d : Drawing,
    drawChart getPropertyValue checklists checked ignored tier color = Ok d
    /\ selector d = ("#" ++ priority_name tier ++ "-container")%string
    /\ PrimFloat.is_nan (animateTo d) = true
    /\ forall state_color bar_value,
         step (config d) state_color bar_value
         = [ SetStroke state_color;
             SetText
               (if truthy_number (Math_round (bar_value * hundred)%float)
                then Percent (Math_round (bar_value * hundred)%float)
                else NoText) ].
Proof.
  intros H. unfold drawChart.
  rewrite (makeDataAndDrawChart_zero_of_zero checklists checked ignored tier
             color).
  2:{ destruct H as [->|E]; [apply calculateProgress_absent|].
      by apply calculateProgress_empty_checklists,
        filterByPriority_tier_empty. }
  cbn [mbind result_bind mret result_ret].
  eexists. split; [reflexivity|]. split; [reflexivity|].
  split; [reflexivity|].
  intros state_color bar_value. cbn [drawProgress config step].
  apply stepFunction_nan.
Qed.

Lemma drawChart_nan_witness :
  exists d : Drawing,
    drawChart (fun _ => "") example_catalog (Some ∅) (Some ∅) advanced
      (Some "hsl(var(--er, 0 91% 71%))") = Ok d
    /\ selector d = "#advanced-container"
    /\ PrimFloat.is_nan (animateTo d) = true
    /\ forall state_color bar_value,
         step (config d) state_color bar_value
         = [ SetStroke state_color;
             SetText
               (if truthy_number (Math_round (bar_value * hundred)%float)
                then Percent (Math_round (bar_value * hundred)%float)
                else NoText) ].
Proof.
  apply (drawChart_nan (fun _ => "") example_catalog (Some ∅) (Some ∅)
           advanced).
  right. repeat constructor.
Defined.

(** X18. For a whole percentage from 0 to 100, when the bar has reached the
    value it is animated towards, the step function shows that percentage
    as the text (no text for 0) and ends by setting the stroke to the
    colour of the gauge. *)
Theorem drawProgress_at_the_end
    (getPropertyValue : string -> string) (p : Z) (target : string)
    (color : option string) (state_color : string) :
  (0 <= p <= 100)%Z ->
  step (config (drawProgress getPropertyValue (of_Z p) target color))
    state_color
    (animateTo (drawProgress getPropertyValue (of_Z p) target color))
  = [ SetStroke state_color;
      SetText (if (p =? 0)%Z then NoText else Percent (of_Z p));
      SetStroke
        (config_color
           (config (drawProgress getPropertyValue (of_Z p) target color))) ].
Proof.
  intros H. unfold drawProgress. cbn [config step animateTo config_color].
  generalize (match color with
              | Some (String c s) => String c s
              | _ => "hsl(var(--pf, 220, 13%, 69%))"
              end).
  intros primaryColor.
  replace p with (Z.of_nat (Z.to_nat p)) by lia.
  assert (Z.to_nat p <= 100)%nat as B by lia.
  generalize dependent (Z.to_nat p). clear. intros n B.
  do 101 (destruct n as [|n]; [vm_compute; reflexivity|]).
  lia.
Qed.

Lemma drawProgress_at_the_end_witness :
  step (config (drawProgress (fun _ => "") (of_Z 33) "#optional-container"
                  None))
    "hsl(43 96% 56%)"
    (animateTo (drawProgress (fun _ => "") (of_Z 33) "#optional-container"
                  None))
  = [ SetStroke "hsl(43 96% 56%)";
      SetText (if (33 =? 0)%Z then NoText else Percent (of_Z 33));
      SetStroke
        (config_color
           (config (drawProgress (fun _ => "") (of_Z 33)
                      "#optional-container" None))) ].
Proof. apply drawProgress_at_the_end. lia. Defined.

(** * The radar, section by section *)

Lemma makeRadarData_total checked ignore sections :
  makeRadarData checked (Some ignore) sections
  = Ok {| labels := map title sections;
          datasets :=
            map (fun tc : Priority * string =>
                   {| borderWidth := 1;
                      label := capitalize (priority_name tc.1);
                      data :=
                        map (fun section =>
                               percent_of
                                 (progress_of checked ignore
                                    (filterByPriority [section]
                                       (priority_name tc.1))))
                            sections;
                      backgroundColor := tc.2 |})
                [ (advanced, "hsl(0 91% 71%/75%)");
                  (optional, "hsl(43 96% 56%/75%)");
                  (recommended, "hsl(158 64% 52%/75%)") ] |}.
Proof.
  unfold makeRadarData. cbn [promise_all].
  rewrite !buildDataForPriority_total. reflexivity.
Qed.

(** X19. The radar treats the sections one by one: for two lists of
    sections put one after the other, the labels are the labels of the
    first followed by those of the second, and so are the values of each
    series; the value of a section does not depend on the other
    sections. *)
Theorem makeRadarData_app
    (checked : option (gmap string bool)) (ignore : gmap string bool)
    (xs ys : Sections) :
  exists d dx dy : RadarChartData,
    makeRadarData checked (Some ignore) (xs ++ ys) = Ok d
    /\ makeRadarData checked (Some ignore) xs = Ok dx
    /\ makeRadarData checked (Some ignore) ys = Ok dy
    /\ labels d = labels dx ++ labels dy
    /\ map label (datasets d) = map label (datasets dx)
    /\ map label (datasets d) = map label (datasets dy)
    /\ map data (datasets d)
       = zip_with app (map data (datasets dx)) (map data (datasets dy)).
Proof.
  do 3 eexists. rewrite !makeRadarData_total.
  split; [reflexivity|]. split; [reflexivity|]. split; [reflexivity|].
  cbn [labels datasets map zip_with data label fst snd].
  rewrite !map_app. done.
Qed.

(** * What the page shows after the load event *)

(** The signal [totalProgress] once the first load handler has run: the
    result of [calculateProgress] over the catalog when its promise is
    fulfilled, and the initial value of the signal when it is rejected. *)
Definition totalProgress_on_load (checklists : Sections)
    (checked ignored : option (gmap string bool)) : Progress :=
  match calculateProgress checked ignored checklists with
  | Ok progress => progress
  | Throw _ => {| completed := 0; outOf := 0 |}
  end.

(** X20. Whatever the two snapshots are, a mapping or [null], the totals
    the page shows after the load event are within the number [N] of items
    of the catalog: [0 <= completed <= N] and [0 <= outOf <= N]. *)
Theorem totalProgress_on_load_bounds
    (checklists : Sections) (checked ignored : option (gmap string bool)) :
  (0 <= completed (totalProgress_on_load checklists checked ignored)
   <= Z.of_nat (length (all_items checklists)))%Z
  /\ (0 <= outOf (totalProgress_on_load checklists checked ignored)
      <= Z.of_nat (length (all_items checklists)))%Z.
Proof.
  unfold totalProgress_on_load. destruct ignored as [ignore|].
  - rewrite calculateProgress_total.
    destruct checked as [completion|]; cbn [progress_of]; [|simpl; lia].
    cbn [aggregate_code completed outOf]. rewrite sum_lengths_all_items.
    pose proof (count_read_le completion (all_items checklists)).
    pose proof (count_read_le ignore (all_items checklists)). lia.
  - rewrite calculateProgress_ignore_absent_cases.
    destruct checked, (all_items checklists); simpl; lia.
Qed.

(** * When a gauge is drawn *)

Lemma tier_empty_all_items tier sections :
  tier_empty tier sections
  <-> filter (in_tier (priority_name tier)) (all_items sections) = [].
Proof.
  unfold tier_empty, all_items.
  induction sections as [|s sections IH]; [by split; [|constructor]|].
  cbn [map concat]. rewrite Forall_cons, filter_app, IH. split.
  - intros [-> ->]. done.
  - intros E. by apply app_eq_nil in E.
Qed.

Lemma makeDataAndDrawChart_throws checklists checked ignored tier color :
  is_Some checked /\ ignored = None /\ ~ tier_empty tier checklists ->
  makeDataAndDrawChart checklists checked ignored tier color = Throw TypeError.
Proof.
  intros ([completion ->] & -> & N). unfold makeDataAndDrawChart.
  rewrite calculateProgress_ignore_absent_cases, all_items_filterByPriority.
  rewrite tier_empty_all_items in N.
  by destruct (filter (in_tier (priority_name tier)) (all_items checklists)).
Qed.

Lemma makeDataAndDrawChart_draws checklists checked ignored tier color :
  ~ (is_Some checked /\ ignored = None /\ ~ tier_empty tier checklists) ->
  exists percent : float,
    makeDataAndDrawChart checklists checked ignored tier color
    = Ok {| percentage := percent;
            target := ("#" ++ priority_name tier ++ "-container")%string;
            color := color |}.
Proof.
  intros N. unfold makeDataAndDrawChart. destruct ignored as [ignore|].
  { rewrite calculateProgress_total. by eexists. }
  rewrite calculateProgress_ignore_absent_cases, all_items_filterByPriority.
  destruct checked as [completion|]; [|by eexists].
  destruct (filter (in_tier (priority_name tier)) (all_items checklists))
    as [|item items] eqn:E; [by eexists|].
  destruct N. split; [by eexists|]. split; [done|].
  rewrite tier_empty_all_items, E. done.
Qed.

(** X21. [makeDataAndDrawChart] fails with a [TypeError], and draws
    nothing, exactly when the completion snapshot is present, the ignore
    snapshot is [null] and the catalog has an item of the tier; in every
    other case it calls [drawProgress] once, with the container of the tier
    as the target and the colour it was given. *)
Theorem makeDataAndDrawChart_drawn
    (checklists : Sections) (checked ignored : option (gmap string bool))
    (tier : Priority) (color : option string) :
  (makeDataAndDrawChart checklists checked ignored tier color
   = Throw TypeError
   <-> is_Some checked /\ ignored = None /\ ~ tier_empty tier checklists)
  /\ ((exists percent : float,
          makeDataAndDrawChart checklists checked ignored tier color
          = Ok {| percentage := percent;
                  target := ("#" ++ priority_name tier ++ "-container")%string;
                  color := color |})
      <-> ~ (is_Some checked /\ ignored = None
             /\ ~ tier_empty tier checklists)).
Proof.
  destruct (decide (is_Some checked /\ ignored = None
                    /\ ~ tier_empty tier checklists)) as [P|P].
  - pose proof (makeDataAndDrawChart_throws _ _ _ _ color P) as E.
    rewrite E. split; split; try done.
    intros [percent E']. done.
  - destruct (makeDataAndDrawChart_draws _ _ _ _ color P) as [percent E].
    rewrite E. split; split; try done.
    intros _. by exists percent.
Qed.

(** * Ids that name a property of [Object.prototype] *)

Lemma normalize_lower_fixed (x : string) :
  Forall (fun c => lower_unit c = c) (units (normalize x)).
Proof.
  rewrite normalize_units, units_map_units. apply Forall_fmap, Forall_true.
  intros c. apply normalize_unit_shape.
Qed.

(** Of the property names of [Object.prototype] only [constructor] and
    [__proto__] can be an id: the others have a capital letter. *)
Lemma own_id_iff (item : ChecklistItem) :
  own_id item
  <-> normalize (point item) <> "constructor"
      /\ normalize (point item) <> "__proto__".
Proof.
  unfold own_id, object_prototype_names.
  pose proof (normalize_lower_fixed (point item)) as L.
  split.
  - intros O. split; intros E; apply O; rewrite E;
      apply (bool_decide_unpack _); vm_compute; exact I.
  - intros [C P] M. rewrite !elem_of_cons, elem_of_nil in M.
    destruct M as [E|[E|[E|[E|[E|[E|[E|[E|[E|[E|[E|[E|[]]]]]]]]]]]]];
      try done; rewrite E in L; revert L;
      apply (bool_decide_eq_false_1 _); vm_compute; reflexivity.
Qed.

(** X22. When no item has the id [constructor] or [__proto__],
    [calculateProgress] is the aggregation of section 4.3: [completed] is the
    number of items whose id maps to [true] in the completion snapshot, and
    [outOf] the sum of the checklist lengths minus the number of items whose
    id maps to [true] in the ignore snapshot. *)
Theorem calculateProgress_refines_spec
    (completion ignore : gmap string bool) (sections : Sections) :
  Forall (fun item => normalize (point item) <> "constructor"
                      /\ normalize (point item) <> "__proto__")
         (all_items sections) ->
  calculateProgress (Some completion) (Some ignore) sections
  = Ok {| completed :=
            Z.of_nat
              (length
                 (filter (fun item =>
                            completion !! normalize (point item) = Some true)
                         (all_items sections)));
          outOf :=
            Z.of_nat
              (sum_list (map (fun s => length (checklist s)) sections))
            - Z.of_nat
                (length
                   (filter (fun item =>
                              ignore !! normalize (point item) = Some true)
                           (all_items sections))) |}.
Proof.
  intros H. apply calculateProgress_present_own.
  eapply Forall_impl; [exact H|]. intros item. apply own_id_iff.
Qed.

Lemma calculateProgress_refines_spec_witness :
  calculateProgress (Some {[ "use-mfa" := true ]})
    (Some {[ "rotate-keys" := true ]}) example_catalog
  = Ok {| completed := 1; outOf := 1 |}.
Proof.
  rewrite (calculateProgress_refines_spec {[ "use-mfa" := true ]}
             {[ "rotate-keys" := true ]} example_catalog).
  - vm_compute. reflexivity.
  - repeat constructor; vm_compute; discriminate.
Defined.

(** X23. An item with the id [constructor] or [__proto__] that a snapshot
    has no key for reads as marked in that snapshot: when neither snapshot
    has the key, the loop body adds 1 to [totalComplete] and takes 1 from
    [totalItems] for the item, and the catalog made of this single item gives
    [completed = 1] and [outOf = 0]. *)
Theorem inherited_id_item
    (completion ignore : gmap string bool) (item : ChecklistItem) :
  normalize (point item) = "constructor"
  \/ normalize (point item) = "__proto__" ->
  completion !! normalize (point item) = None ->
  ignore !! normalize (point item) = None ->
  (forall st,
      count_item (Some ignore) completion item st
      = Ok {| totalComplete := totalComplete st + 1;
              totalItems := totalItems st - 1 |})
  /\ (forall t,
        calculateProgress (Some completion) (Some ignore)
          [ {| title := t; checklist := [item] |} ]
        = Ok {| completed := 1; outOf := 0 |}).
Proof.
  intros N C I.
  assert (reads_true completion item /\ reads_true ignore item) as [Rc Ri].
  { unfold reads_true, get_property. rewrite C, I.
    destruct N as [-> | ->]; split; reflexivity. }
  split.
  - intros st. rewrite count_item_step.
    by rewrite !bool_decide_eq_true_2.
  - intros t. rewrite calculateProgress_present.
    unfold aggregate_code, sum_lengths, all_items.
    cbn [map concat checklist app sum_list sum_list_with length].
    rewrite !count_read_cons, !bool_decide_eq_true_2 by done.
    reflexivity.
Qed.

Lemma inherited_id_item_witness :
  calculateProgress (Some {[ "use-mfa" := true ]}) (Some ∅)
    [ {| title := "Browsing";
         checklist := [ {| point := "__PROTO__"; priority := "advanced" |} ] |} ]
  = Ok {| completed := 1; outOf := 0 |}.
Proof.
  apply (inherited_id_item {[ "use-mfa" := true ]} ∅
           {| point := "__PROTO__"; priority := "advanced" |});
    [right | | ]; vm_compute; reflexivity.
Defined.

(** X24. When no item has the id [constructor] or [__proto__], an empty
    ignore snapshot does not reduce [outOf]: it is the number of items for
    every completion snapshot, and with both snapshots empty the result is
    [completed = 0] and [outOf] = the number of items. *)
Theorem empty_snapshots_own_ids (sections : Sections) :
  Forall (fun item => normalize (point item) <> "constructor"
                      /\ normalize (point item) <> "__proto__")
         (all_items sections) ->
  calculateProgress (Some ∅) (Some ∅) sections
  = Ok {| completed := 0; outOf := Z.of_nat (length (all_items sections)) |}
  /\ (forall completion : gmap string bool,
        exists r : Progress,
          calculateProgress (Some completion) (Some ∅) sections = Ok r
          /\ outOf r = Z.of_nat (length (all_items sections))).
Proof.
  intros H.
  assert (Forall own_id (all_items sections)) as O.
  { eapply Forall_impl; [exact H|]. intros item. apply own_id_iff. }
  split.
  - rewrite calculateProgress_present_own by done. unfold aggregate_spec.
    rewrite !count_marked_empty, sum_lengths_all_items. do 2 f_equal. lia.
  - intros completion. eexists.
    split; [by apply calculateProgress_present_own|].
    cbn [aggregate_spec outOf].
    rewrite count_marked_empty, sum_lengths_all_items. lia.
Qed.

Lemma empty_snapshots_own_ids_witness :
  calculateProgress (Some ∅) (Some ∅) example_catalog
  = Ok {| completed := 0;
          outOf := Z.of_nat (length (all_items example_catalog)) |}.
Proof.
  apply (empty_snapshots_own_ids example_catalog).
  repeat constructor; vm_compute; discriminate.
Defined.
